(** * ProMonitor Modbus emulator: scenario state, data generator and writer

    Shallow embedding of [src/data_generator.py] (generate_sensor_reading,
    generate_all_sensors, insert_readings, run_generator), of the scenario
    endpoints and the generator loop of [src/app.py] (SCENARIO_STATE,
    trigger_scenario, stop_scenario, continuous_data_generation), of
    [ModbusIntegrationWriter] of [src/integration_writer.py] (connect,
    write_sensor_data, start_emulation), and of the register codec of the
    spec.

    A Python float is a rational [Q]; each float operation returns its
    exact result rounded by a function [fl : Q -> Q]. Theorems hold for
    every [fl] that is monotone, leaves binary64 numbers unchanged and
    rounds to a nearest one ([float_rounding]), as binary64
    round-to-nearest does; [id] (exact arithmetic) is one such [fl], and
    [fl64] is binary64 round-to-nearest-even itself, with which the
    counterexamples are evaluated. JSON values of a request body are
    [json] terms, and a float operation on one that is not a number
    raises ([outcome]). [random.random()] is a stream [rand : nat -> Q] of
    outcomes indexed by a draw counter that is threaded through the code. *)

From Stdlib Require Import ZArith QArith Qround Qabs Lqa Lia List.
From stdpp Require Import base gmap strings.
Import ListNotations.

Open Scope Z_scope.

(** ** Python's [round(x, 2)] *)

(** Numerator (over 100) of [round(x, 2)]: nearest integer to [100 * x],
    ties to even, as CPython rounds the exact value. *)
Definition round2_num (x : Q) : Z :=
  let y := (x * inject_Z 100)%Q in
  let f := Qfloor y in
  let d := (y - inject_Z f)%Q in
  if Qeq_bool d (1 # 2) then (if Z.even f then f else f + 1)
  else if Qle_bool d (1 # 2) then f else f + 1.

(** [round(x, 2)]: a value with two decimals, kept as [n # 100]; the
    float that Python returns is the rounding [fl] of it. *)
Definition round2 (x : Q) : Q := Qmake (round2_num x) 100.

(** ** Binary64 arithmetic *)

(** The properties of the rounding [fl] of float operations that the
    theorems use: it is monotone, it leaves unchanged every value
    [n / 2^e] with [|n| <= 2^53] and [0 <= e <= 1074] (all of them
    binary64 numbers), rounding a rounded value changes nothing, and no
    such number is nearer to [x] than [fl x] (rounding to nearest). *)
Definition float_rounding (fl : Q -> Q) : Prop :=
  (forall x y : Q, (x <= y)%Q -> (fl x <= fl y)%Q) /\
  (forall n e : Z, Z.abs n <= 2 ^ 53 -> 0 <= e <= 1074 ->
     (fl (inject_Z n / inject_Z (2 ^ e)) == inject_Z n / inject_Z (2 ^ e))%Q) /\
  (forall x : Q, (fl (fl x) == fl x)%Q) /\
  (forall (x : Q) (n e : Z), Z.abs n <= 2 ^ 53 -> 0 <= e <= 1074 ->
     (Qabs (fl x - x) <= Qabs (inject_Z n / inject_Z (2 ^ e) - x))%Q).

(** A binary64 number of the form [n / 2^e] above: every value
    [random.random()] returns is one. *)
Definition is_double (q : Q) : Prop :=
  exists n e : Z, Z.abs n <= 2 ^ 53 /\ 0 <= e <= 1074 /\ (q == inject_Z n / inject_Z (2 ^ e))%Q.

(** [2^e] for an int [e] of either sign. *)
Definition pow2Q (e : Z) : Q :=
  if 0 <=? e then inject_Z (2 ^ e) else 1 # Z.to_pos (2 ^ (- e)).

(** The integer nearest to [y], ties to even. *)
Definition round_half_even (y : Q) : Z :=
  let f := Qfloor y in
  let d := (y - inject_Z f)%Q in
  if Qeq_bool d (1 # 2) then (if Z.even f then f else f + 1)
  else if Qle_bool d (1 # 2) then f else f + 1.

(** IEEE 754 binary64 rounding to nearest, ties to even: the value is
    [m * 2^e] with [2^52 <= m < 2^53] for a normal result, and the least
    exponent is [-1074]. Overflow to an infinity is not modelled (the
    values this file evaluates stay far below [2^1024]). *)
Definition fl64 (x : Q) : Q :=
  let n := Qnum x in
  if n =? 0 then 0%Q else
  let a := Qabs x in
  let l := Z.log2 (Z.abs n) - Z.log2 (Zpos (Qden x)) in
  let lg := if Qle_bool (pow2Q l) a then l else l - 1 in
  let e := Z.max (lg - 52) (-1074) in
  ((if n <? 0 then -1 else 1) * inject_Z (round_half_even (a / pow2Q e)) * pow2Q e)%Q.

(** ** random.uniform *)

Section Random.
Variable rand : nat -> Q.
Variable fl : Q -> Q.

(** [random.uniform(a, b) = a + (b - a) * random.random()] for int
    bounds: [b - a] is an exact int, the product and the sum are rounded;
    the counter is the index of the next draw. *)
Definition uniform (a b : Q) (k : nat) : Q * nat :=
  (fl (a + fl ((b - a) * rand k)%Q)%Q, S k).

End Random.

(** ** JSON values and Python exceptions *)

(** A value decoded by [request.get_json()]: null, a boolean, an int
    (Python ints are unbounded), a float (finite; the infinities and NaN
    that Python's parser also accepts are not modelled), a string, an
    array or an object. *)
#[warnings="-register-all"]
Inductive json :=
  | JNull
  | JBool (b : bool)
  | JInt (z : Z)
  | JFloat (q : Q)
  | JStr (s : string)
  | JArr (xs : list json)
  | JObj (kvs : list (string * json)).

(** The exceptions the modelled code can raise. *)
Inductive exn := KeyError | TypeError | OverflowError.

(** A computation that returns a value or raises. *)
Inductive outcome (A : Type) :=
  | Ret (a : A)
  | Raise (e : exn).
Arguments Ret {A} a.
Arguments Raise {A} e.

Definition is_ret {A} (o : outcome A) : bool :=
  match o with Ret _ => true | Raise _ => false end.

(** Ints of at least this magnitude make [float(n)] (and [x + n] for a
    float [x]) raise [OverflowError]: they round to [2^1024]. *)
Definition float_int_limit : Z := 2 ^ 1024 - 2 ^ 970.

(** The right operand of [x + v] or [x - v] for a float [x]: an int or a
    bool is converted to a float, a float is used as it is, and any other
    value makes the operator raise [TypeError]. *)
Definition float_operand (v : json) : outcome Q :=
  match v with
  | JBool b => Ret (if b then 1 else 0)%Q
  | JInt z => if Z.abs z <? float_int_limit then Ret (inject_Z z) else Raise OverflowError
  | JFloat q => Ret q
  | _ => Raise TypeError
  end.

(** [x += v] and [x -= v] for a float [x]: the operand is converted to a
    float ([fl q], which leaves a float or a bool as it is and rounds a
    large int) and the result is rounded. *)
Definition py_add (fl : Q -> Q) (x : Q) (v : json) : outcome Q :=
  match float_operand v with
  | Ret q => Ret (fl (x + fl q)%Q)
  | Raise e => Raise e
  end.

Definition py_sub (fl : Q -> Q) (x : Q) (v : json) : outcome Q :=
  match float_operand v with
  | Ret q => Ret (fl (x - fl q)%Q)
  | Raise e => Raise e
  end.

(** The int a JSON value equals under Python's [==], if any: an int, a
    bool ([True == 1], [False == 0]) or a float with an integral value. *)
Definition json_int_value (v : json) : option Z :=
  match v with
  | JInt z => Some z
  | JBool b => Some (if b then 1 else 0)
  | JFloat q => if Qeq_bool q (inject_Z (Qfloor q)) then Some (Qfloor q) else None
  | _ => None
  end.

(** ** Scenario state ([SCENARIO_STATE] in app.py, [ACTIVE_SCENARIOS] in
    data_generator.py, which [sync_scenarios_from_app] aliases to it) *)

(** One scenario entry, a Python dict. [building_id] is [JNull] for a
    key that is absent or holds [None] (which [dict.get] does not
    distinguish); for the other optional fields [None] is an absent key. *)
Record entry := mk_entry {
  active : bool;
  building_id : json;
  intensity : option json;
  started_at : option Z;
  duration : option json;
  affected_sensors : option (list Z);
  failed_sensors : option (list Z)
}.

(** The empty dict [{}] that [ACTIVE_SCENARIOS.get(name, {})] falls back to. *)
Definition empty_entry : entry := mk_entry false JNull None None None None None.

Definition initial_entry (i : Z) : entry :=
  mk_entry false JNull (Some (JInt i)) None None None None.

Definition SCENARIO_STATE : gmap string entry :=
  <[ "temperature_spike" := initial_entry 10 ]>
  (<[ "humidity_drop" := initial_entry 15 ]>
  (<[ "co2_alarm" := initial_entry 400 ]>
  {[ "equipment_failure" := mk_entry false JNull None None None None (Some []) ]})).

(** [ACTIVE_SCENARIOS.get(name, {})] *)
Definition get_entry (st : gmap string entry) (name : string) : entry :=
  default empty_entry (st !! name).

(** [s.get('active') and s.get('building_id') == building_id] *)
Definition applies (e : entry) (b : Z) : bool :=
  active e && bool_decide (json_int_value (building_id e) = Some b).

(** ** generate_sensor_reading *)

Record reading := mk_reading {
  r_sensor_id : Z;
  r_temperature : Q;
  r_humidity : Q;
  r_co2 : Q;
  r_pressure : Q;
  r_building_id : Z;
  r_controller_id : Z;
  r_timestamp : Z
}.

Definition base_temps (b : Z) : option Q :=
  match b with
  | 1 => Some (20 # 1) | 2 => Some (21 # 1) | 3 => Some (23 # 1)
  | 4 => Some (25 # 1) | 5 => Some (26 # 1) | _ => None
  end.

Definition base_humidity (b : Z) : option Q :=
  match b with
  | 1 => Some (47 # 1) | 2 => Some (49 # 1) | 3 => Some (51 # 1)
  | 4 => Some (53 # 1) | 5 => Some (55 # 1) | _ => None
  end.

Section Generator.
Variable rand : nat -> Q.
Variable fl : Q -> Q.

(** The four values before the scenarios are applied, and the counter;
    [base_temps[building_id] + uniform(...)] is a rounded float sum. *)
Definition normal_values (bt bh : Q) (k : nat) : Q * Q * Q * Q * nat :=
  let '(u1, k1) := uniform rand fl (-2 # 1) (2 # 1) k in
  let '(u2, k2) := uniform rand fl (-5 # 1) (5 # 1) k1 in
  let '(co2, k3) := uniform rand fl (400 # 1) (600 # 1) k2 in
  let '(pressure, k4) := uniform rand fl (990 # 1) (1020 # 1) k3 in
  (fl (bt + u1)%Q, fl (bh + u2)%Q, co2, pressure, k4).

(** Lines 73-95: the building-level scenario adjustments, in order; an
    intensity that is not a number makes [+=] or [-=] raise. *)
Definition apply_scenarios (st : gmap string entry) (b : Z)
    (vals : Q * Q * Q * Q * nat) : outcome (Q * Q * Q * Q) * nat :=
  let '(t0, h0, c0, p0, k0) := vals in
  let ts := get_entry st "temperature_spike" in
  match (if applies ts b then py_add fl t0 (default (JInt 10) (intensity ts)) else Ret t0) with
  | Raise e => (Raise e, k0)
  | Ret t1 =>
  let hs := get_entry st "humidity_drop" in
  match (if applies hs b then py_sub fl h0 (default (JInt 15) (intensity hs)) else Ret h0) with
  | Raise e => (Raise e, k0)
  | Ret h1 =>
  let cs := get_entry st "co2_alarm" in
  match (if applies cs b then py_add fl c0 (default (JInt 400) (intensity cs)) else Ret c0) with
  | Raise e => (Raise e, k0)
  | Ret c1 =>
  let fs := get_entry st "equipment_failure" in
  if applies fs b then
    let '(u, k1) := uniform rand fl (-10 # 1) (10 # 1) k0 in
    let '(h2, k2) := uniform rand fl (0 # 1) (100 # 1) k1 in
    let '(c2, k3) := uniform rand fl (0 # 1) (2000 # 1) k2 in
    let '(p2, k4) := uniform rand fl (900 # 1) (1100 # 1) k3 in
    (Ret (fl (t1 + u)%Q, h2, c2, p2), k4)
  else (Ret (t1, h1, c1, p0), k0)
  end end end.

(** [generate_sensor_reading(sensor_id, building_id, controller_id)]
    reading the scenario dict [st] at time [now]; [base_temps[building_id]]
    raises [KeyError] before any draw; [round(x, 2)] returns the float
    [fl (round2 x)]. *)
Definition generate_sensor_reading (st : gmap string entry) (now : Z)
    (sensor_id b controller_id : Z) (k : nat) : outcome reading * nat :=
  match base_temps b, base_humidity b with
  | Some bt, Some bh =>
      match apply_scenarios st b (normal_values bt bh k) with
      | (Ret (t, h, c, p), k') =>
          (Ret (mk_reading sensor_id (fl (round2 t)) (fl (round2 h)) (fl (round2 c))
                  (fl (round2 p)) b controller_id now), k')
      | (Raise e, k') => (Raise e, k')
      end
  | _, _ => (Raise KeyError, k)
  end.

(** [range(a, b)] *)
Definition py_range (a b : Z) : list Z :=
  map (fun i => a + Z.of_nat i) (seq 0 (Z.to_nat (b - a))).

Definition block (b c lo hi : Z) : list (Z * Z * Z) :=
  map (fun s => (b, c, s)) (py_range lo hi).

Definition sensors_config : list (Z * Z * Z) :=
  block 1 1 1 5 ++ block 1 2 5 9 ++ block 1 3 9 13 ++
  block 2 4 13 17 ++ block 2 5 17 21 ++ block 2 6 21 25 ++
  block 3 7 25 29 ++ block 3 8 29 33 ++ block 3 9 33 37 ++
  block 4 10 37 41 ++ block 4 11 41 45 ++
  block 5 12 45 49 ++ block 5 13 49 53.

(** The [for] loop of [generate_all_sensors]: an exception of
    [generate_sensor_reading] propagates out of it. *)
Fixpoint generate_loop (st : gmap string entry) (now : Z)
    (cfg : list (Z * Z * Z)) (k : nat) : outcome (list reading) * nat :=
  match cfg with
  | [] => (Ret [], k)
  | (b, c, s) :: rest =>
      match generate_sensor_reading st now s b c k with
      | (Ret r, k1) =>
          match generate_loop st now rest k1 with
          | (Ret rs, k2) => (Ret (r :: rs), k2)
          | (Raise e, k2) => (Raise e, k2)
          end
      | (Raise e, k1) => (Raise e, k1)
      end
  end.

(** [generate_all_sensors()] *)
Definition generate_all_sensors (st : gmap string entry) (now : Z) (k : nat)
    : outcome (list reading) * nat :=
  generate_loop st now sensors_config k.

End Generator.

(** ** Scenario endpoints of app.py *)

(** The JSON body of a POST when it is an object (any other body makes
    [data.get] raise, which the handler turns into a failure).
    [req_type] is the ['type'] value when it is a string and [None] when
    the key is absent or holds another value (each of which fails
    [in SCENARIO_STATE], or makes it raise, and differs from 'all').
    For the other fields [None] is an absent key; an explicit [null] is
    [Some JNull], which [data.get(key, default)] returns as [None]. *)
Record request := mk_request {
  req_type : option string;
  req_building_id : option json;
  req_intensity : option json;
  req_duration : option json
}.

Module Scenarios.

(** The default intensity chosen at lines 580-589 of app.py. *)
Definition default_intensity (ty : string) : Z :=
  if String.eqb ty "temperature_spike" then 10
  else if String.eqb ty "humidity_drop" then 15
  else if String.eqb ty "co2_alarm" then 400
  else 0.

(** [building_id = data.get('building_id', 1)] *)
Definition building_of (rq : request) : json := default (JInt 1) (req_building_id rq).

(** [intensity = data.get('intensity')], replaced by the default when
    it is [None] (absent or null). *)
Definition intensity_of (ty : string) (rq : request) : json :=
  match req_intensity rq with
  | None | Some JNull => JInt (default_intensity ty)
  | Some v => v
  end.

(** [duration = data.get('duration', 300)] *)
Definition duration_of (rq : request) : json := default (JInt 300) (req_duration rq).

(** [trigger_scenario()]: [data] is [request.get_json()] ([None] makes
    [data.get] raise, which the handler turns into a failure);
    [db building] is the result of the [SELECT DISTINCT sensor_id] query
    with that parameter, [None] when connecting or querying raises; [now]
    is the [started_at] timestamp. The boolean is the response's
    [success]. *)
Definition trigger_scenario (st : gmap string entry) (data : option request)
    (db : json -> option (list Z)) (now : Z) : bool * gmap string entry :=
  match data with
  | None => (false, st)
  | Some rq =>
      match req_type rq with
      | None => (false, st)
      | Some ty =>
          match st !! ty with
          | None => (false, st)
          | Some _ =>
              let b := building_of rq in
              let i := intensity_of ty rq in
              let dur := duration_of rq in
              match db b with
              | None => (false, st)
              | Some affected =>
                  (true, <[ ty := mk_entry true b (Some i) (Some now)
                                   (Some dur) (Some affected) None ]> st)
              end
          end
      end
  end.

(** [SCENARIO_STATE[key]['active'] = False; ...['building_id'] = None] *)
Definition deactivate (e : entry) : entry :=
  mk_entry false JNull (intensity e) (started_at e) (duration e)
    (affected_sensors e) (failed_sensors e).

(** [stop_scenario()] *)
Definition stop_scenario (st : gmap string entry) (data : option request)
    : bool * gmap string entry :=
  match data with
  | None => (false, st)
  | Some rq =>
      match req_type rq with
      | Some "all"%string => (true, deactivate <$> st)
      | Some ty =>
          match st !! ty with
          | Some e => (true, <[ ty := deactivate e ]> st)
          | None => (false, st)
          end
      | None => (false, st)
      end
  end.

(** A call of one of the two endpoints. *)
Inductive op :=
  | Trigger (data : option request) (db : json -> option (list Z)) (now : Z)
  | Stop (data : option request).

Definition step (st : gmap string entry) (o : op) : gmap string entry :=
  match o with
  | Trigger data db now => snd (trigger_scenario st data db now)
  | Stop data => snd (stop_scenario st data)
  end.

Definition run (ops : list op) : gmap string entry :=
  fold_left step ops SCENARIO_STATE.

Definition scenario_names : gset string :=
  {[ "temperature_spike"; "humidity_drop"; "co2_alarm"; "equipment_failure" ]}.

End Scenarios.

(** ** ModbusIntegrationWriter.write_sensor_data (integration_writer.py) *)

Module Writer.

(** A row of [data_data]: (value, date, name_id). *)
Definition row : Type := Q * Z * Z.

(** The writer's state: [self.sensor_mappings] (id -> (name, sys_id))
    and the rows its cursor has inserted. *)
Record writer := mk_writer {
  sensor_mappings : gmap Z (string * Z);
  data_data : list row
}.

(** What the [INSERT ... RETURNING id] does: the row is inserted and
    [fetchone()] returns its id, [execute] raises (nothing inserted),
    or the row is inserted (autocommit) and [fetchone()[0]] raises. *)
Inductive db_outcome :=
  | Inserted (id : Z)
  | ExecuteError
  | FetchError.

(** [write_sensor_data(sensor_id, value, timestamp=None)] at clock [now];
    every exception is caught by the handler and returns [False]. *)
Definition write_sensor_data (w : writer) (sensor_id : Z) (value : Q)
    (timestamp : option Z) (now : Z) (out : db_outcome) : bool * writer :=
  let ts := default now timestamp in
  match sensor_mappings w !! sensor_id with
  | None => (false, w)
  | Some _ =>
      let w' := mk_writer (sensor_mappings w) (data_data w ++ [(value, ts, sensor_id)]) in
      match out with
      | Inserted _ => (true, w')
      | ExecuteError => (false, w)
      | FetchError => (false, w')
      end
  end.

End Writer.

(** ** Register codec *)

Module RegisterCodec.

(** Modelled from the spec: the register codec (section 4.1) is not among
    the repository files available here. A float32 value is identified
    with its IEEE-754 binary32 bit pattern [v], [0 <= v < 2^32]; it is
    finite when its exponent field is not all ones. *)
Definition finite32 (v : Z) : bool :=
  negb (Z.land (Z.shiftr v 23) 255 =? 255).

(** Modelled from the spec: [struct.pack('>f', v)], the four bytes of
    the binary32 pattern, most significant first. *)
Definition pack_be (v : Z) : list Z :=
  [Z.land (Z.shiftr v 24) 255; Z.land (Z.shiftr v 16) 255;
   Z.land (Z.shiftr v 8) 255; Z.land v 255].

(** Modelled from the spec: [struct.unpack('>f', bytes)] on four bytes. *)
Definition unpack_be (bs : list Z) : Z :=
  fold_left (fun acc b => Z.lor (Z.shiftl acc 8) b) bs 0.

(** Modelled from the spec: [encode(value) -> (hi, lo)], [hi] the first
    two bytes and [lo] the last two, each big-endian. *)
Definition encode (v : Z) : Z * Z :=
  match pack_be v with
  | [b0; b1; b2; b3] => (Z.lor (Z.shiftl b0 8) b1, Z.lor (Z.shiftl b2 8) b3)
  | _ => (0, 0)
  end.

(** Modelled from the spec: [decode(hi, lo)], the inverse. *)
Definition decode (hi lo : Z) : Z :=
  unpack_be [Z.shiftr hi 8; Z.land hi 255; Z.shiftr lo 8; Z.land lo 255].

End RegisterCodec.

(** * Proofs *)

(** ** Bit-level helpers *)

Lemma lor_shiftl8 (x y : Z) : 0 <= y < 256 -> Z.lor (Z.shiftl x 8) y = x * 256 + y.
Proof.
  intros Hy.
  assert (Hdisj : Z.land (Z.shiftl x 8) y = 0).
  { apply Z.bits_inj'; intros n Hn. rewrite Z.land_spec, Z.bits_0.
    destruct (Z.lt_ge_cases n 8).
    - rewrite Z.shiftl_spec_low by lia. reflexivity.
    - destruct (Z.eq_dec y 0) as [->|Hy0].
      + rewrite Z.bits_0. apply Bool.andb_false_r.
      + assert (Z.log2 y < 8) by (apply Z.log2_lt_pow2; lia).
        rewrite (Z.bits_above_log2 y n) by lia. apply Bool.andb_false_r. }
  rewrite <- Z.lxor_lor, <- Z.add_nocarry_lxor by exact Hdisj.
  rewrite Z.shiftl_mul_pow2 by lia. reflexivity.
Qed.

Lemma land255 (x : Z) : Z.land x 255 = x mod 256.
Proof. change 255 with (Z.ones 8). rewrite Z.land_ones by lia. reflexivity. Qed.

Lemma shiftr_div (x k : Z) : 0 <= k -> Z.shiftr x k = x / 2 ^ k.
Proof. intros. apply Z.shiftr_div_pow2; lia. Qed.

Lemma encode_arith (v : Z) :
  0 <= v < 2 ^ 32 -> RegisterCodec.encode v = (v / 2 ^ 16, v mod 2 ^ 16).
Proof.
  intros Hv. unfold RegisterCodec.encode, RegisterCodec.pack_be.
  rewrite !land255, !shiftr_div by lia.
  rewrite !lor_shiftl8 by (apply Z.mod_pos_bound; lia).
  f_equal; Z.to_euclidean_division_equations; lia.
Qed.

(** [C7] For every finite float32 value [v] (its binary32 pattern),
    [encode v] is a pair of 16-bit register words and [decode] applied to
    them gives [v] back. *)
Theorem register_roundtrip (v : Z) (Hv : 0 <= v < 2 ^ 32)
    (Hfin : RegisterCodec.finite32 v = true) :
  let '(hi, lo) := RegisterCodec.encode v in
  0 <= hi < 2 ^ 16 /\ 0 <= lo < 2 ^ 16 /\ RegisterCodec.decode hi lo = v.
Proof.
  rewrite encode_arith by exact Hv.
  unfold RegisterCodec.decode, RegisterCodec.unpack_be; simpl fold_left.
  rewrite !land255, !shiftr_div by lia.
  rewrite !lor_shiftl8
    by (first [apply Z.mod_pos_bound; lia | Z.to_euclidean_division_equations; lia]).
  repeat split; Z.to_euclidean_division_equations; lia.
Qed.

Lemma register_roundtrip_witness :
  (0 <= 1078530011 < 2 ^ 32 /\ RegisterCodec.finite32 1078530011 = true) /\
  RegisterCodec.encode 1078530011 = (16457, 4059) /\
  RegisterCodec.decode 16457 4059 = 1078530011.
Proof.
  pose proof (register_roundtrip 1078530011 ltac:(lia) eq_refl) as H.
  split; [split; [lia | reflexivity] |].
  split; [reflexivity |].
  rewrite (encode_arith 1078530011) in H by lia. simpl in H.
  destruct H as [_ [_ H]]. exact H.
Defined.

(** ** Scenario state *)

Section ScenarioProofs.
Import Scenarios.

Lemma dom_initial : dom SCENARIO_STATE = scenario_names.
Proof.
  unfold SCENARIO_STATE, scenario_names.
  rewrite !dom_insert_L, dom_singleton_L. set_solver.
Qed.

Lemma trigger_dom (st : gmap string entry) data db now :
  dom (snd (trigger_scenario st data db now)) = dom st.
Proof.
  unfold trigger_scenario.
  destruct data as [rq|]; [|reflexivity].
  destruct (req_type rq) as [ty|]; [|reflexivity].
  destruct (st !! ty) eqn:Hty; [|reflexivity].
  destruct (db _); [|reflexivity]. simpl.
  rewrite dom_insert_L. apply elem_of_dom_2 in Hty. set_solver.
Qed.

Lemma stop_dom (st : gmap string entry) data :
  dom (snd (stop_scenario st data)) = dom st.
Proof.
  unfold stop_scenario.
  destruct data as [rq|]; [|reflexivity].
  destruct (req_type rq) as [ty|]; [|reflexivity].
  assert (Hgen : forall ty0, dom (snd match st !! ty0 with
                        | Some e => (true, <[ty0:=deactivate e]> st)
                        | None => (false, st) end) = dom st).
  { intros ty0. destruct (st !! ty0) eqn:Hty; [|reflexivity]. simpl.
    rewrite dom_insert_L. apply elem_of_dom_2 in Hty. set_solver. }
  repeat match goal with
  | |- context [match ?a with _ => _ end] => is_var a; destruct a
  end; try apply Hgen; simpl; apply dom_fmap_L.
Qed.

Lemma run_dom (ops : list op) : dom (run ops) = scenario_names.
Proof.
  unfold run. rewrite <- dom_initial. generalize SCENARIO_STATE.
  induction ops as [|o ops IH]; intros st; simpl; [reflexivity|].
  rewrite IH. destruct o; simpl; [apply trigger_dom | apply stop_dom].
Qed.

Lemma run_lookup_None (ops : list op) (name : string) :
  name ∉ scenario_names -> run ops !! name = None.
Proof. intros H. apply not_elem_of_dom. rewrite run_dom. exact H. Qed.

Lemma run_lookup_Some (ops : list op) (name : string) :
  name ∈ scenario_names -> exists e, run ops !! name = Some e.
Proof. intros H. apply elem_of_dom. rewrite run_dom. exact H. Qed.

End ScenarioProofs.

(** [C3] For every scenario name outside the closed set, in every state
    reached from the initial one, [trigger_scenario] fails and leaves the
    state unchanged, and so does [stop_scenario] unless the name is "all". *)
Theorem invalid_scenario_rejected (ops : list Scenarios.op) (rq : request)
    (name : string) db now :
  req_type rq = Some name -> name ∉ Scenarios.scenario_names ->
  Scenarios.trigger_scenario (Scenarios.run ops) (Some rq) db now
    = (false, Scenarios.run ops) /\
  (name <> "all"%string ->
   Scenarios.stop_scenario (Scenarios.run ops) (Some rq)
     = (false, Scenarios.run ops)).
Proof.
  intros Hty Hout. pose proof (run_lookup_None ops name Hout) as Hnone.
  split.
  - unfold Scenarios.trigger_scenario. rewrite Hty, Hnone. reflexivity.
  - intros Hall. unfold Scenarios.stop_scenario. rewrite Hty.
    assert (Hgen : (match Scenarios.run ops !! name with
                    | Some e => (true, <[name:=Scenarios.deactivate e]> (Scenarios.run ops))
                    | None => (false, Scenarios.run ops) end)
                   = (false, Scenarios.run ops)) by (rewrite Hnone; reflexivity).
    destruct name as [|c s]; [exact Hgen|].
    repeat match goal with
    | |- context [match ?a with _ => _ end] => is_var a; destruct a
    end; try exact Hgen; congruence.
Qed.

Definition fire_request : request := mk_request (Some "fire"%string) None None None.

Lemma invalid_scenario_rejected_witness :
  Scenarios.trigger_scenario (Scenarios.run []) (Some fire_request) (fun _ => Some []) 0
    = (false, Scenarios.run []) /\
  Scenarios.stop_scenario (Scenarios.run []) (Some fire_request)
    = (false, Scenarios.run []).
Proof.
  assert (Hout : "fire"%string ∉ Scenarios.scenario_names)
    by (unfold Scenarios.scenario_names; set_solver).
  destruct (invalid_scenario_rejected [] fire_request "fire" (fun _ => Some []) 0
              eq_refl Hout) as [H1 H2].
  split; [exact H1 | apply H2; discriminate].
Defined.

Lemma trigger_success (st : gmap string entry) (rq : request) (ty : string)
    (e0 : entry) (db : json -> option (list Z)) now (aff : list Z) :
  req_type rq = Some ty -> st !! ty = Some e0 ->
  db (Scenarios.building_of rq) = Some aff ->
  Scenarios.trigger_scenario st (Some rq) db now =
  (true, <[ ty := mk_entry true (Scenarios.building_of rq) (Some (Scenarios.intensity_of ty rq))
                   (Some now) (Some (Scenarios.duration_of rq)) (Some aff) None ]> st).
Proof.
  intros Hty He0 Hdb. unfold Scenarios.trigger_scenario.
  rewrite Hty, He0, Hdb. reflexivity.
Qed.

(** [C4] A successful trigger of any scenario type (the sensor query
    succeeding) activates it with the caller's intensity, stored exactly
    as supplied, when the body has one (a value other than null), and
    otherwise with the default of the type: 10 for temperature_spike, 15
    for humidity_drop, 400 for co2_alarm (and 0 for equipment_failure). *)
Theorem trigger_intensity (ops : list Scenarios.op) (rq : request) (ty : string)
    (db : json -> option (list Z)) now (aff : list Z) :
  req_type rq = Some ty -> ty ∈ Scenarios.scenario_names ->
  db (Scenarios.building_of rq) = Some aff ->
  exists st' e,
    Scenarios.trigger_scenario (Scenarios.run ops) (Some rq) db now = (true, st') /\
    st' !! ty = Some e /\ active e = true /\
    ((req_intensity rq = None \/ req_intensity rq = Some JNull) ->
       (ty = "temperature_spike"%string -> intensity e = Some (JInt 10)) /\
       (ty = "humidity_drop"%string -> intensity e = Some (JInt 15)) /\
       (ty = "co2_alarm"%string -> intensity e = Some (JInt 400)) /\
       (ty = "equipment_failure"%string -> intensity e = Some (JInt 0))) /\
    (forall v, req_intensity rq = Some v -> v <> JNull -> intensity e = Some v).
Proof.
  intros Hty Hin Hdb.
  destruct (run_lookup_Some ops ty Hin) as [e0 He0].
  rewrite (trigger_success _ rq ty e0 db now aff Hty He0 Hdb).
  eexists _, _. split; [reflexivity|]. split; [apply lookup_insert_eq|].
  split; [reflexivity|]. cbn [intensity]. unfold Scenarios.intensity_of. split.
  - intros [Hn | Hn]; rewrite Hn; repeat split; intros ->; reflexivity.
  - intros v Hv Hnull. rewrite Hv. destruct v; try reflexivity. congruence.
Qed.

Definition spike_request (i : option json) : request :=
  mk_request (Some "temperature_spike"%string) (Some (JInt 2)) i None.

Lemma trigger_intensity_witness :
  exists st' e,
    Scenarios.trigger_scenario (Scenarios.run [])
      (Some (mk_request (Some "equipment_failure"%string) None (Some (JInt 7)) None))
      (fun _ => Some [1; 2]) 0 = (true, st') /\
    st' !! "equipment_failure"%string = Some e /\ intensity e = Some (JInt 7).
Proof.
  assert (Hin : "equipment_failure"%string ∈ Scenarios.scenario_names)
    by (unfold Scenarios.scenario_names; set_solver).
  destruct (trigger_intensity [] (mk_request (Some "equipment_failure"%string) None (Some (JInt 7)) None)
              "equipment_failure" (fun _ => Some [1; 2]) 0 [1; 2] eq_refl Hin eq_refl)
    as (st' & e & Htr & He & _ & _ & Hv).
  exists st', e. split; [exact Htr|]. split; [exact He|].
  apply Hv; [reflexivity | discriminate].
Defined.

(** [C5] After every sequence of trigger and stop calls from the initial
    state, the scenario dict has exactly one entry per scenario type (and
    no other key), each scoped to at most one building; a successful
    trigger of a type replaces that type's entry and keeps the key set. *)
Theorem one_instance_per_type (ops : list Scenarios.op) (rq : request)
    (ty : string) (db : json -> option (list Z)) now (st' : gmap string entry) :
  dom (Scenarios.run ops) = Scenarios.scenario_names /\
  (req_type rq = Some ty ->
   Scenarios.trigger_scenario (Scenarios.run ops) (Some rq) db now = (true, st') ->
   dom st' = Scenarios.scenario_names /\
   exists e, st' = <[ ty := e ]> (Scenarios.run ops) /\ active e = true /\
             building_id e = Scenarios.building_of rq).
Proof.
  split; [apply run_dom|].
  intros Hty Htr. split.
  - replace st' with (snd (Scenarios.trigger_scenario (Scenarios.run ops) (Some rq) db now))
      by (rewrite Htr; reflexivity).
    rewrite trigger_dom. apply run_dom.
  - revert Htr. unfold Scenarios.trigger_scenario. rewrite Hty.
    destruct (Scenarios.run ops !! ty); [|discriminate].
    destruct (db _); [|discriminate].
    intros Htr. injection Htr as <-. eexists. split; [reflexivity|]. split; reflexivity.
Qed.

Definition spike_ops : list Scenarios.op :=
  [Scenarios.Trigger (Some (spike_request None)) (fun _ => Some []) 0].

Lemma one_instance_per_type_witness :
  let st' := snd (Scenarios.trigger_scenario (Scenarios.run spike_ops)
                    (Some (spike_request (Some (JInt 5)))) (fun _ => Some [1]) 7) in
  Scenarios.trigger_scenario (Scenarios.run spike_ops)
    (Some (spike_request (Some (JInt 5)))) (fun _ => Some [1]) 7 = (true, st') /\
  dom st' = Scenarios.scenario_names /\
  exists e, st' = <[ "temperature_spike"%string := e ]> (Scenarios.run spike_ops) /\
            active e = true /\ building_id e = JInt 2.
Proof.
  intros st'.
  assert (Htr : Scenarios.trigger_scenario (Scenarios.run spike_ops)
                  (Some (spike_request (Some (JInt 5)))) (fun _ => Some [1]) 7 = (true, st'))
    by reflexivity.
  destruct (one_instance_per_type spike_ops (spike_request (Some (JInt 5)))
              "temperature_spike" (fun _ => Some [1]) 7 st') as [_ H].
  destruct (H eq_refl Htr) as [Hdom He].
  split; [exact Htr|]. split; [exact Hdom|]. exact He.
Defined.

Definition stop_request (ty : string) : request := mk_request (Some ty) None None None.

(** [C6] In every reachable state, stopping "all" succeeds and leaves
    every scenario type inactive with no building; stopping one valid type
    succeeds, clears only that entry's active flag and building and keeps
    its other fields (intensity included), and leaves every other entry
    unchanged. *)
Theorem stop_frame (ops : list Scenarios.op) (ty : string) :
  (exists st', Scenarios.stop_scenario (Scenarios.run ops) (Some (stop_request "all")) = (true, st') /\
     dom st' = Scenarios.scenario_names /\
     forall k e, st' !! k = Some e -> active e = false /\ building_id e = JNull) /\
  (ty ∈ Scenarios.scenario_names ->
   exists st' e e',
     Scenarios.stop_scenario (Scenarios.run ops) (Some (stop_request ty)) = (true, st') /\
     Scenarios.run ops !! ty = Some e /\ st' !! ty = Some e' /\
     active e' = false /\ building_id e' = JNull /\
     intensity e' = intensity e /\ started_at e' = started_at e /\
     duration e' = duration e /\ affected_sensors e' = affected_sensors e /\
     failed_sensors e' = failed_sensors e /\
     forall k, k <> ty -> st' !! k = Scenarios.run ops !! k).
Proof.
  split.
  - eexists. split; [reflexivity|]. split.
    + rewrite dom_fmap_L. apply run_dom.
    + intros k e Hk. rewrite lookup_fmap in Hk.
      destruct (Scenarios.run ops !! k); simpl in Hk; [|discriminate].
      injection Hk as <-. split; reflexivity.
  - intros Hin. destruct (run_lookup_Some ops ty Hin) as [e He].
    assert (Hne : ty <> "all"%string)
      by (intros ->; unfold Scenarios.scenario_names in Hin; set_solver).
    assert (Hstop : Scenarios.stop_scenario (Scenarios.run ops) (Some (stop_request ty))
                    = (true, <[ ty := Scenarios.deactivate e ]> (Scenarios.run ops))).
    { unfold Scenarios.stop_scenario; simpl.
      assert (Hgen : (match Scenarios.run ops !! ty with
                      | Some e0 => (true, <[ty:=Scenarios.deactivate e0]> (Scenarios.run ops))
                      | None => (false, Scenarios.run ops) end)
                     = (true, <[ ty := Scenarios.deactivate e ]> (Scenarios.run ops)))
        by (rewrite He; reflexivity).
      destruct ty as [|c s]; [exact Hgen|].
      repeat match goal with
      | |- context [match ?a with _ => _ end] => is_var a; destruct a
      end; try exact Hgen; congruence. }
    exists (<[ ty := Scenarios.deactivate e ]> (Scenarios.run ops)), e, (Scenarios.deactivate e).
    split; [exact Hstop|]. split; [exact He|]. split; [apply lookup_insert_eq|].
    repeat split.
    intros k Hk. apply lookup_insert_ne. congruence.
Qed.

Lemma stop_frame_witness :
  (exists st', Scenarios.stop_scenario (Scenarios.run spike_ops) (Some (stop_request "all")) = (true, st') /\
     dom st' = Scenarios.scenario_names /\
     forall k e, st' !! k = Some e -> active e = false /\ building_id e = JNull) /\
  ("co2_alarm"%string ∈ Scenarios.scenario_names /\
   exists st' e e',
     Scenarios.stop_scenario (Scenarios.run spike_ops) (Some (stop_request "co2_alarm")) = (true, st') /\
     Scenarios.run spike_ops !! "co2_alarm"%string = Some e /\ st' !! "co2_alarm"%string = Some e' /\
     active e' = false /\ building_id e' = JNull /\
     intensity e' = intensity e /\ started_at e' = started_at e /\
     duration e' = duration e /\ affected_sensors e' = affected_sensors e /\
     failed_sensors e' = failed_sensors e /\
     forall k, k <> "co2_alarm"%string -> st' !! k = Scenarios.run spike_ops !! k).
Proof.
  assert (Hin : "co2_alarm"%string ∈ Scenarios.scenario_names)
    by (unfold Scenarios.scenario_names; set_solver).
  destruct (stop_frame spike_ops "co2_alarm") as [H1 H2].
  split; [exact H1|]. split; [exact Hin|]. exact (H2 Hin).
Defined.

(** ** Integration writer *)

(** [C8] For a sensor id absent from [sensor_mappings], [write_sensor_data]
    returns [False] and inserts no row; for a mapped id whose insert
    succeeds it returns [True] and appends exactly that row. The result
    is always a boolean: every exception is caught. *)
Theorem write_sensor_data_result (w : Writer.writer) (sensor_id : Z) (value : Q)
    (timestamp : option Z) (now : Z) (out : Writer.db_outcome) :
  (Writer.sensor_mappings w !! sensor_id = None ->
   Writer.write_sensor_data w sensor_id value timestamp now out = (false, w)) /\
  (forall m id, Writer.sensor_mappings w !! sensor_id = Some m -> out = Writer.Inserted id ->
   Writer.write_sensor_data w sensor_id value timestamp now out
   = (true, Writer.mk_writer (Writer.sensor_mappings w)
              (Writer.data_data w ++ [(value, default now timestamp, sensor_id)]))).
Proof.
  unfold Writer.write_sensor_data. split.
  - intros ->. reflexivity.
  - intros m id -> ->. reflexivity.
Qed.

Definition demo_writer : Writer.writer :=
  Writer.mk_writer {[ 7 := ("Temp zone 1"%string, 1) ]} [].

Lemma write_sensor_data_result_witness :
  Writer.write_sensor_data demo_writer 8 (21 # 1) None 100 (Writer.Inserted 1) = (false, demo_writer) /\
  Writer.write_sensor_data demo_writer 7 (21 # 1) None 100 (Writer.Inserted 1)
  = (true, Writer.mk_writer (Writer.sensor_mappings demo_writer) [((21 # 1), 100, 7)]).
Proof.
  destruct (write_sensor_data_result demo_writer 8 (21 # 1) None 100 (Writer.Inserted 1)) as [H1 _].
  destruct (write_sensor_data_result demo_writer 7 (21 # 1) None 100 (Writer.Inserted 1)) as [_ H2].
  split.
  - apply H1. reflexivity.
  - apply (H2 ("Temp zone 1"%string, 1) 1); reflexivity.
Defined.

(** ** generate_all_sensors *)

(** The draws all equal to 1/2 (the midpoint of every [uniform]). *)
Definition mid_draws : nat -> Q := fun _ => 1 # 2.

Definition reading_key (r : reading) : Z * Z * Z :=
  (r_building_id r, r_controller_id r, r_sensor_id r).

Definition cfg_sensor (x : Z * Z * Z) : Z := let '(_, _, s) := x in s.
Definition cfg_building (x : Z * Z * Z) : Z := let '(b, _, _) := x in b.

(** The adjustment of scenario [name] (lines 74-87, intensity default
    [d]) does not raise for building [b]: the scenario does not apply to
    [b], or its intensity is an operand [+=] and [-=] accept. *)
Definition adjustment_ok (st : gmap string entry) (name : string) (d b : Z) : bool :=
  let e := get_entry st name in
  negb (applies e b) || is_ret (float_operand (default (JInt d) (intensity e))).

(** None of the three adjustments raises for building [b]. *)
Definition scenarios_ok (st : gmap string entry) (b : Z) : bool :=
  adjustment_ok st "temperature_spike" 10 b && adjustment_ok st "humidity_drop" 15 b &&
  adjustment_ok st "co2_alarm" 400 b.

Ltac destruct_scenarios st b :=
  unfold scenarios_ok, adjustment_ok, py_add, py_sub;
  destruct (applies (get_entry st "temperature_spike") b);
  destruct (applies (get_entry st "humidity_drop") b);
  destruct (applies (get_entry st "co2_alarm") b);
  destruct (applies (get_entry st "equipment_failure") b);
  destruct (float_operand (default (JInt 10) (intensity (get_entry st "temperature_spike"))));
  destruct (float_operand (default (JInt 15) (intensity (get_entry st "humidity_drop"))));
  destruct (float_operand (default (JInt 400) (intensity (get_entry st "co2_alarm")))).

(** [apply_scenarios] raises exactly when an adjustment does, before the
    equipment failure draws; otherwise it draws four more values when
    equipment_failure applies. *)
Lemma apply_scenarios_result (rand : nat -> Q) (fl : Q -> Q) st b t h c p k :
  (scenarios_ok st b = false -> exists e, apply_scenarios rand fl st b (t, h, c, p, k) = (Raise e, k)) /\
  (scenarios_ok st b = true -> exists t' h' c' p',
     apply_scenarios rand fl st b (t, h, c, p, k)
     = (Ret (t', h', c', p'),
        if applies (get_entry st "equipment_failure") b then S (S (S (S k))) else k)).
Proof.
  unfold apply_scenarios, uniform. destruct_scenarios st b; cbn;
    split; intros H; try discriminate; eauto.
Qed.

Lemma base_temps_Some (b : Z) : (exists bt, base_temps b = Some bt) <-> 1 <= b <= 5.
Proof.
  split.
  - intros [bt H]. unfold base_temps in H.
    destruct b as [|p|p]; [discriminate| |discriminate].
    repeat (destruct p as [p|p|]; cbn in H; try discriminate); lia.
  - intros Hb. assert (b = 1 \/ b = 2 \/ b = 3 \/ b = 4 \/ b = 5) as Hc by lia.
    destruct Hc as [-> | [-> | [-> | [-> | ->]]]]; eauto.
Qed.

Lemma base_humidity_Some (b : Z) : 1 <= b <= 5 -> exists bh, base_humidity b = Some bh.
Proof.
  intros Hb. assert (b = 1 \/ b = 2 \/ b = 3 \/ b = 4 \/ b = 5) as Hc by lia.
  destruct Hc as [-> | [-> | [-> | [-> | ->]]]]; eauto.
Qed.

Lemma normal_values_counter (rand : nat -> Q) (fl : Q -> Q) bt bh k :
  exists t h c p, normal_values rand fl bt bh k = (t, h, c, p, S (S (S (S k)))).
Proof. unfold normal_values, uniform. eauto. Qed.

(** For a building in 1..5, [generate_sensor_reading] returns a reading
    exactly when no adjustment raises, after four or eight draws, and
    otherwise raises after the four normal draws. *)
Lemma generate_sensor_reading_cases (rand : nat -> Q) (fl : Q -> Q) st now s b c k :
  1 <= b <= 5 ->
  (scenarios_ok st b = true -> exists r,
     generate_sensor_reading rand fl st now s b c k
     = (Ret r, ((if applies (get_entry st "equipment_failure") b then 8 else 4) + k)%nat) /\
     reading_key r = (b, c, s)) /\
  (scenarios_ok st b = false -> exists e,
     generate_sensor_reading rand fl st now s b c k = (Raise e, (4 + k)%nat)).
Proof.
  intros Hb. destruct (proj2 (base_temps_Some b) Hb) as [bt Hbt].
  destruct (base_humidity_Some b Hb) as [bh Hbh].
  unfold generate_sensor_reading. rewrite Hbt, Hbh.
  destruct (normal_values_counter rand fl bt bh k) as (t & h & co & p & ->).
  destruct (apply_scenarios_result rand fl st b t h co p (S (S (S (S k))))) as [Hf Ht].
  split.
  - intros Hok. destruct (Ht Hok) as (t' & h' & c' & p' & ->).
    eexists. split; [destruct (applies _ b); reflexivity | reflexivity].
  - intros Hko. destruct (Hf Hko) as [e ->]. eexists. reflexivity.
Qed.

(** A returned reading carries its building, controller and sensor. *)
Lemma generate_sensor_reading_ret (rand : nat -> Q) (fl : Q -> Q) st now s b c k r k' :
  generate_sensor_reading rand fl st now s b c k = (Ret r, k') -> reading_key r = (b, c, s).
Proof.
  unfold generate_sensor_reading.
  destruct (base_temps b), (base_humidity b); try discriminate.
  destruct (apply_scenarios _ _ _ _) as [[[[[t h] co] p]|e] k1]; [|discriminate].
  intros H. injection H as <- _. reflexivity.
Qed.

Lemma generate_loop_ret (rand : nat -> Q) (fl : Q -> Q) st now (cfg : list (Z * Z * Z)) k rs k' :
  generate_loop rand fl st now cfg k = (Ret rs, k') -> map reading_key rs = cfg.
Proof.
  revert k rs k'. induction cfg as [|[[b c] s] rest IH]; intros k rs k'; simpl.
  - intros H. injection H as <- _. reflexivity.
  - destruct (generate_sensor_reading rand fl st now s b c k) as [[r|e] k1] eqn:Hg; [|discriminate].
    destruct (generate_loop rand fl st now rest k1) as [[rs1|e] k2] eqn:Hl; [|discriminate].
    intros H. injection H as <- _. simpl.
    rewrite (generate_sensor_reading_ret _ _ _ _ _ _ _ _ _ _ Hg), (IH k1 rs1 k2 Hl). reflexivity.
Qed.

Lemma generate_loop_is_ret (rand : nat -> Q) (fl : Q -> Q) st now (cfg : list (Z * Z * Z)) k :
  Forall (fun x => 1 <= cfg_building x <= 5) cfg ->
  is_ret (fst (generate_loop rand fl st now cfg k))
  = forallb (fun x => scenarios_ok st (cfg_building x)) cfg.
Proof.
  intros Hcfg. revert k. induction Hcfg as [|[[b c] s] rest Hx Hrest IH]; intros k; [reflexivity|].
  simpl in Hx |- *.
  destruct (generate_sensor_reading_cases rand fl st now s b c k Hx) as [Hok Hko].
  destruct (scenarios_ok st b) eqn:E.
  - destruct (Hok eq_refl) as (r & -> & _).
    specialize (IH ((if applies (get_entry st "equipment_failure") b then 8 else 4) + k)%nat).
    destruct (generate_loop _ _ _ _ rest _) as [[rs|e] k2]; exact IH.
  - destruct (Hko eq_refl) as [e ->]. reflexivity.
Qed.

Lemma sensors_config_buildings : Forall (fun x => 1 <= cfg_building x <= 5) sensors_config.
Proof.
  unfold sensors_config, block, py_range; simpl.
  repeat (constructor; [simpl; lia|]). constructor.
Qed.

Lemma forallb_config (f : Z -> bool) :
  forallb (fun x => f (cfg_building x)) sensors_config = true <->
  forall b, 1 <= b <= 5 -> f b = true.
Proof.
  split.
  - intros H b Hb. assert (b = 1 \/ b = 2 \/ b = 3 \/ b = 4 \/ b = 5) as Hc by lia.
    rewrite forallb_forall in H.
    destruct Hc as [-> | [-> | [-> | [-> | ->]]]];
      [apply (H (1, 1, 1)) | apply (H (2, 4, 13)) | apply (H (3, 7, 25))
      | apply (H (4, 10, 37)) | apply (H (5, 12, 45))];
      vm_compute; tauto.
  - intros H. apply forallb_forall. intros x Hx. apply H.
    pose proof sensors_config_buildings as Hc. rewrite List.Forall_forall in Hc. exact (Hc x Hx).
Qed.

Definition count_building (b : Z) (rs : list reading) : nat :=
  length (List.filter (fun r => Z.eqb (r_building_id r) b) rs).

(** [C9] (amended) [generate_all_sensors] returns readings exactly when
    no active temperature_spike, humidity_drop or co2_alarm scenario for
    one of the buildings 1..5 holds an intensity that makes [+=] or [-=]
    raise (a string, null, array or object, or an int too large for a
    float); when it returns them, there are 52 readings whose sensor ids
    are exactly 1..52, pairwise distinct, with buildings 1, 2, 3 holding
    12 sensors each and buildings 4 and 5 holding 8 each, the assignment
    being the fixed [sensors_config]. *)
Theorem generate_all_sensors_shape (rand : nat -> Q) (fl : Q -> Q) (st : gmap string entry)
    (now : Z) (k : nat) :
  (is_ret (fst (generate_all_sensors rand fl st now k)) = true <->
   forall b, 1 <= b <= 5 -> scenarios_ok st b = true) /\
  (forall rs k', generate_all_sensors rand fl st now k = (Ret rs, k') ->
    length rs = 52%nat /\
    map r_sensor_id rs = py_range 1 53 /\
    NoDup (map r_sensor_id rs) /\
    map reading_key rs = sensors_config /\
    count_building 1 rs = 12%nat /\ count_building 2 rs = 12%nat /\
    count_building 3 rs = 12%nat /\ count_building 4 rs = 8%nat /\
    count_building 5 rs = 8%nat).
Proof.
  split.
  - unfold generate_all_sensors.
    rewrite (generate_loop_is_ret rand fl st now sensors_config k sensors_config_buildings).
    apply (forallb_config (scenarios_ok st)).
  - intros rs k' Hgen.
    pose proof (generate_loop_ret rand fl st now sensors_config k rs k' Hgen) as Hkeys.
    assert (Hids : map r_sensor_id rs = map cfg_sensor sensors_config).
    { rewrite <- Hkeys, map_map. apply map_ext. intros r. reflexivity. }
    assert (Hcount : forall b, count_building b rs
                     = length (List.filter (fun x => Z.eqb (cfg_building x) b) sensors_config)).
    { intros b. unfold count_building. rewrite <- Hkeys.
      clear. induction rs as [|r rs IH]; [reflexivity|].
      simpl. destruct (Z.eqb (r_building_id r) b); simpl; rewrite IH; reflexivity. }
    assert (Hlen : length rs = length sensors_config)
      by (rewrite <- Hkeys, length_map; reflexivity).
    rewrite Hlen, Hids, !Hcount.
    split; [reflexivity|]. split; [reflexivity|]. split.
    + apply (bool_decide_unpack (NoDup (map cfg_sensor sensors_config))). vm_compute. reflexivity.
    + split; [exact Hkeys|]. repeat split; reflexivity.
Qed.

(** A temperature_spike triggered for building 1 (the default) with the
    string intensity "5", from the initial state. *)
Definition string_spike_ops : list Scenarios.op :=
  [Scenarios.Trigger
     (Some (mk_request (Some "temperature_spike"%string) None (Some (JStr "5")) None))
     (fun _ => Some []) 0].

(** [C9] The claim fails: after a successful trigger of temperature_spike
    with the intensity "5", [generate_all_sensors()] raises [TypeError]
    at its first sensor (after four draws) instead of returning readings. *)
Lemma generate_all_sensors_raises_counterexample :
  fst (Scenarios.trigger_scenario SCENARIO_STATE
         (Some (mk_request (Some "temperature_spike"%string) None (Some (JStr "5")) None))
         (fun _ => Some []) 0) = true /\
  generate_all_sensors mid_draws fl64 (Scenarios.run string_spike_ops) 0 0 = (Raise TypeError, 4%nat).
Proof. split; vm_compute; reflexivity. Qed.

(** ** Rounding helpers *)

Lemma Qfloor_unique (y : Q) (z : Z) :
  (inject_Z z <= y)%Q -> (y < inject_Z (z + 1))%Q -> Qfloor y = z.
Proof.
  intros Hlo Hhi.
  assert (H1 : (z <= Qfloor y)%Z) by (rewrite <- (Qfloor_Z z) at 1; apply Qfloor_resp_le; exact Hlo).
  assert (H2 : (inject_Z (Qfloor y) < inject_Z (z + 1))%Q)
    by (eapply Qle_lt_trans; [apply Qfloor_le | exact Hhi]).
  rewrite <- Zlt_Qlt in H2. lia.
Qed.

Lemma round2_num_cases (x : Q) :
  round2_num x = Qfloor (x * inject_Z 100) \/
  (round2_num x = Qfloor (x * inject_Z 100) + 1 /\
   (inject_Z (Qfloor (x * inject_Z 100)) < x * inject_Z 100)%Q).
Proof.
  unfold round2_num.
  set (y := (x * inject_Z 100)%Q). set (f := Qfloor y).
  assert (Hf : (inject_Z f <= y)%Q) by apply Qfloor_le.
  destruct (Qeq_bool (y - inject_Z f) (1 # 2)) eqn:Heq.
  - apply Qeq_bool_iff in Heq.
    destruct (Z.even f); [left; reflexivity|right; split; [reflexivity|lra]].
  - destruct (Qle_bool (y - inject_Z f) (1 # 2)) eqn:Hle; [left; reflexivity|].
    right. split; [reflexivity|].
    assert (Hn : ~ (y - inject_Z f <= 1 # 2)%Q) by (rewrite <- Qle_bool_iff, Hle; discriminate).
    lra.
Qed.

(** [round(x, 2)] stays within bounds that have two decimals. *)
Lemma round2_num_bounds (x : Q) (A B : Z) :
  (inject_Z A <= x * inject_Z 100 <= inject_Z B)%Q -> A <= round2_num x <= B.
Proof.
  intros [HA HB].
  set (f := Qfloor (x * inject_Z 100)).
  assert (Hf : (inject_Z f <= x * inject_Z 100)%Q) by apply Qfloor_le.
  assert (HAf : A <= f) by (rewrite <- (Qfloor_Z A); apply Qfloor_resp_le; exact HA).
  assert (HfB : f <= B) by (rewrite Zle_Qle; eapply Qle_trans; [exact Hf | exact HB]).
  destruct (round2_num_cases x) as [-> | [-> Hlt]]; [fold f; lia|].
  fold f in Hlt |- *.
  assert (f < B) by (rewrite Zlt_Qlt; eapply Qlt_le_trans; [exact Hlt | exact HB]). lia.
Qed.

Lemma round2_bounds (x lo hi : Q) (A B : Z) :
  (lo == Qmake A 100)%Q -> (hi == Qmake B 100)%Q -> (lo <= x <= hi)%Q ->
  (lo <= round2 x <= hi)%Q.
Proof.
  intros HA HB. rewrite HA, HB. intros [Hlo Hhi].
  assert (HAB : A <= round2_num x <= B).
  { apply round2_num_bounds. unfold Qle in *; simpl in *. split; nia. }
  unfold round2, Qle; simpl. split; nia.
Qed.

Lemma round2_num_compat (x x' : Q) : (x == x')%Q -> round2_num x = round2_num x'.
Proof.
  intros Hx. unfold round2_num.
  assert (Hy : (x * inject_Z 100 == x' * inject_Z 100)%Q) by (rewrite Hx; reflexivity).
  rewrite (Qfloor_comp _ _ Hy).
  assert (Hd : (x * inject_Z 100 - inject_Z (Qfloor (x' * inject_Z 100))
               == x' * inject_Z 100 - inject_Z (Qfloor (x' * inject_Z 100)))%Q)
    by (rewrite Hy; reflexivity).
  destruct (Qeq_bool (x' * inject_Z 100 - inject_Z (Qfloor (x' * inject_Z 100))) (1 # 2)) eqn:E1.
  - apply Qeq_bool_iff in E1. rewrite <- Hd in E1. apply Qeq_bool_iff in E1. rewrite E1. reflexivity.
  - destruct (Qeq_bool (x * inject_Z 100 - inject_Z (Qfloor (x' * inject_Z 100))) (1 # 2)) eqn:E2.
    { apply Qeq_bool_iff in E2. rewrite Hd in E2. apply Qeq_bool_iff in E2. congruence. }
    destruct (Qle_bool (x' * inject_Z 100 - inject_Z (Qfloor (x' * inject_Z 100))) (1 # 2)) eqn:E3.
    + apply Qle_bool_iff in E3. rewrite <- Hd in E3. apply Qle_bool_iff in E3. rewrite E3. reflexivity.
    + destruct (Qle_bool (x * inject_Z 100 - inject_Z (Qfloor (x' * inject_Z 100))) (1 # 2)) eqn:E4;
        [|reflexivity].
      apply Qle_bool_iff in E4. rewrite Hd in E4. apply Qle_bool_iff in E4. congruence.
Qed.


Lemma round2_bounds_Z (x : Q) (A B : Z) :
  (inject_Z A <= x <= inject_Z B)%Q -> (inject_Z A <= round2 x <= inject_Z B)%Q.
Proof.
  apply round2_bounds with (A := 100 * A) (B := 100 * B);
    unfold Qeq; simpl; lia.
Qed.

(** [round(x, 2)] is monotone. *)
Lemma round2_num_mono (x y : Q) : (x <= y)%Q -> round2_num x <= round2_num y.
Proof.
  intros Hxy. unfold round2_num.
  assert (HXY : (x * inject_Z 100 <= y * inject_Z 100)%Q)
    by (apply Qmult_le_compat_r; [exact Hxy | unfold Qle; simpl; lia]).
  set (X := (x * inject_Z 100)%Q) in *. set (Y := (y * inject_Z 100)%Q) in *.
  assert (Hf : Qfloor X <= Qfloor Y) by (apply Qfloor_resp_le; exact HXY).
  pose proof (Qfloor_le X) as Hx1. pose proof (Qlt_floor X) as Hx2.
  pose proof (Qfloor_le Y) as Hy1. pose proof (Qlt_floor Y) as Hy2.
  rewrite inject_Z_plus in Hx2, Hy2.
  destruct (Z.eq_dec (Qfloor X) (Qfloor Y)) as [E|NE].
  - rewrite <- E in Hy1, Hy2 |- *. clear Hf E.
    destruct (Z.even (Qfloor X));
    repeat match goal with |- context [if ?c then _ else _] => destruct c eqn:? end;
    try lia; exfalso;
    repeat match goal with
      | H : Qeq_bool _ _ = true |- _ => apply Qeq_bool_iff in H
      | H : Qeq_bool _ _ = false |- _ => apply Qeq_bool_neq in H
      | H : Qle_bool _ _ = true |- _ => apply Qle_bool_iff in H
      | H : Qle_bool ?a ?b = false |- _ =>
          assert (~ (a <= b)%Q) by (rewrite <- Qle_bool_iff, H; discriminate); clear H
      end;
    first [lra | match goal with H : ~ (_ == _)%Q |- _ => apply H; lra end].
  - assert (Qfloor X + 1 <= Qfloor Y) by lia.
    repeat match goal with |- context [if ?c then _ else _] => destruct c end; lia.
Qed.

Lemma round2_mono (x y : Q) : (x <= y)%Q -> (round2 x <= round2 y)%Q.
Proof.
  intros Hxy. pose proof (round2_num_mono x y Hxy) as H.
  unfold round2, Qle; simpl. lia.
Qed.

(** ** The rounding of float operations *)

Lemma float_rounding_id : float_rounding id.
Proof.
  split; [|split; [|split]].
  - intros x y H. exact H.
  - intros n e _ _. reflexivity.
  - intros x. reflexivity.
  - intros x n e _ _. unfold id.
    assert (E : (x - x == 0)%Q) by ring. rewrite E. apply Qabs_nonneg.
Qed.

Lemma Qdiv_Z_le (a c P R : Z) : 0 < P -> 0 < R ->
  (inject_Z a / inject_Z P <= inject_Z c / inject_Z R)%Q <-> a * R <= c * P.
Proof.
  intros HP HR. destruct P as [|p|p]; try lia. destruct R as [|r|r]; try lia.
  unfold Qle, Qdiv, Qmult, Qinv; simpl. rewrite !Pos2Z.inj_mul. lia.
Qed.

(** The largest binary64 number not above 1/400000 is [co2_draw_max]. *)
Definition co2_draw_max : Q := 5902958103587056 # 2361183241434822606848.

Lemma double_le_co2_draw_max (q : Q) :
  is_double q -> (0 <= q <= 1 # 400000)%Q -> (q <= co2_draw_max)%Q.
Proof.
  intros (n & e & Hn & He & Hq) [H0 H1]. rewrite Hq in H0, H1 |- *.
  assert (HP : 0 < 2 ^ e) by (apply Z.pow_pos_nonneg; lia).
  assert (Hn0 : 0 <= n).
  { assert (E0 : (0 == inject_Z 0 / inject_Z 1)%Q) by (unfold Qeq; reflexivity).
    rewrite E0 in H0. apply (Qdiv_Z_le 0 n 1 (2 ^ e)) in H0; lia. }
  assert (Hn1 : n * 400000 <= 2 ^ e).
  { assert (E1 : (1 # 400000 == inject_Z 1 / inject_Z 400000)%Q) by (unfold Qeq; reflexivity).
    rewrite E1 in H1. apply (Qdiv_Z_le n 1 (2 ^ e) 400000) in H1; lia. }
  assert (Em : (co2_draw_max == inject_Z 5902958103587056 / inject_Z (2 ^ 71))%Q)
    by (vm_compute; reflexivity).
  rewrite Em. apply Qdiv_Z_le; [exact HP | lia |].
  change (2 ^ 53) with 9007199254740992 in Hn.
  destruct (Z.le_gt_cases e 71) as [Hle | Hgt].
  - assert (E : 2 ^ 71 = 2 ^ (71 - e) * 2 ^ e)
      by (rewrite <- Z.pow_add_r by lia; f_equal; lia).
    assert (HA : 0 < 2 ^ (71 - e)) by (apply Z.pow_pos_nonneg; lia).
    assert (Hm : n * 2 ^ (71 - e) <= 2 ^ 71 / 400000).
    { apply Z.div_le_lower_bound; [lia|]. rewrite E. nia. }
    change (2 ^ 71 / 400000) with 5902958103587056 in Hm.
    rewrite E. nia.
  - assert (E : 2 ^ e = 2 ^ (e - 72) * 2 ^ 72)
      by (rewrite <- Z.pow_add_r by lia; f_equal; lia).
    assert (HA : 1 <= 2 ^ (e - 72))
      by (assert (0 < 2 ^ (e - 72)) by (apply Z.pow_pos_nonneg; lia); lia).
    rewrite E. change (2 ^ 72) with 4722366482869645213696.
    change (2 ^ 71) with 2361183241434822606848. nia.
Qed.

Section Rounding.
Variable fl : Q -> Q.
Hypothesis Hfl : float_rounding fl.

Lemma fl_mono (x y : Q) : (x <= y)%Q -> (fl x <= fl y)%Q.
Proof. apply (proj1 Hfl). Qed.

Lemma fl_compat (x y : Q) : (x == y)%Q -> (fl x == fl y)%Q.
Proof.
  intros H. apply Qle_antisym; apply fl_mono; rewrite H; apply Qle_refl.
Qed.

Lemma fl_idem (x : Q) : (fl (fl x) == fl x)%Q.
Proof. apply (proj1 (proj2 (proj2 Hfl))). Qed.

Lemma fl_nearest (x : Q) (n e : Z) : Z.abs n <= 2 ^ 53 -> 0 <= e <= 1074 ->
  (Qabs (fl x - x) <= Qabs (inject_Z n / inject_Z (2 ^ e) - x))%Q.
Proof. apply (proj2 (proj2 (proj2 Hfl))). Qed.

Lemma fl_Z (z : Z) (x : Q) : Z.abs z <= 2 ^ 53 -> (x == inject_Z z)%Q -> (fl x == x)%Q.
Proof.
  intros Hz Hx.
  assert (Hd : (x == inject_Z z / inject_Z (2 ^ 0))%Q)
    by (rewrite Hx; unfold Qeq, Qdiv, Qmult, Qinv; simpl; lia).
  rewrite (fl_compat _ _ Hd), Hd. apply (proj1 (proj2 Hfl)); lia.
Qed.

Lemma fl_bounds (x : Q) (A B : Z) :
  Z.abs A <= 2 ^ 53 -> Z.abs B <= 2 ^ 53 ->
  (inject_Z A <= x <= inject_Z B)%Q -> (inject_Z A <= fl x <= inject_Z B)%Q.
Proof.
  intros HA HB [H1 H2]. split.
  - eapply Qle_trans; [| apply fl_mono, H1].
    rewrite (fl_Z A (inject_Z A) HA (Qeq_refl _)). apply Qle_refl.
  - eapply Qle_trans; [apply fl_mono, H2|].
    rewrite (fl_Z B (inject_Z B) HB (Qeq_refl _)). apply Qle_refl.
Qed.

(** The float Python returns for [round(x, 2)] keeps integer bounds. *)
Lemma fl_round2_bounds (x : Q) (A B : Z) :
  Z.abs A <= 2 ^ 53 -> Z.abs B <= 2 ^ 53 ->
  (inject_Z A <= x <= inject_Z B)%Q -> (inject_Z A <= fl (round2 x) <= inject_Z B)%Q.
Proof. intros HA HB Hx. apply fl_bounds; [exact HA | exact HB | apply round2_bounds_Z, Hx]. Qed.

(** [uniform(a, b)] for int bounds lies in [a, b] when the draw is in [0, 1]. *)
Lemma uniform_bounds (rand : nat -> Q) (a b : Z) k u k' :
  (0 <= rand k <= 1)%Q -> a <= b -> Z.abs a <= 2 ^ 53 -> Z.abs b <= 2 ^ 53 ->
  b - a <= 2 ^ 53 ->
  uniform rand fl (inject_Z a) (inject_Z b) k = (u, k') ->
  (inject_Z a <= u <= inject_Z b)%Q /\ k' = S k.
Proof.
  intros [H0 H1] Hab HA HB HD E. unfold uniform in E. injection E as <- <-.
  split; [|reflexivity].
  assert (Hd : (inject_Z b - inject_Z a == inject_Z (b - a))%Q)
    by (unfold Qeq; simpl; lia).
  assert (Hd0 : (0 <= inject_Z (b - a))%Q)
    by (change 0%Q with (inject_Z 0); rewrite <- Zle_Qle; lia).
  assert (Hm : (inject_Z 0 <= (inject_Z b - inject_Z a) * rand k <= inject_Z (b - a))%Q).
  { rewrite Hd. change (inject_Z 0) with 0%Q. split; [apply Qmult_le_0_compat; assumption|].
    assert (0 <= inject_Z (b - a) * (1 - rand k))%Q
      by (apply Qmult_le_0_compat; lra).
    assert (inject_Z (b - a) * (1 - rand k) == inject_Z (b - a) - inject_Z (b - a) * rand k)%Q
      by ring.
    lra. }
  pose proof (fl_bounds _ 0 (b - a) ltac:(lia) ltac:(lia) Hm) as Hf.
  change (inject_Z 0) with 0%Q in Hf.
  apply fl_bounds; [exact HA | exact HB |]. lra.
Qed.

(** A rounded product of at most [2000 * co2_draw_max] is at most 1/200. *)
Lemma fl_co2_small (x : Q) :
  (0 <= x <= (2000 # 1) * co2_draw_max)%Q -> (0 <= fl x <= 1 # 200)%Q.
Proof.
  intros [H0 H1]. unfold co2_draw_max in H1. split.
  - pose proof (fl_nearest x 0 0 ltac:(lia) ltac:(lia)) as Hn.
    assert (E0 : (inject_Z 0 / inject_Z (2 ^ 0) - x == - x)%Q)
      by (unfold Qminus; rewrite Qplus_0_l; reflexivity).
    rewrite E0, Qabs_opp, (Qabs_pos x H0) in Hn.
    apply Qabs_Qle_condition in Hn. lra.
  - pose proof (fl_nearest x 5764607523034234 60 ltac:(lia) ltac:(lia)) as Hn.
    assert (ED : (inject_Z 5764607523034234 / inject_Z (2 ^ 60)
                  == 5764607523034234 # 1152921504606846976)%Q) by (vm_compute; reflexivity).
    rewrite ED in Hn. apply Qabs_Qle_condition in Hn. destruct Hn as [_ Hn].
    destruct (Qlt_le_dec x (5764607523034234 # 1152921504606846976)) as [Hx | Hx].
    + rewrite Qabs_pos in Hn by lra. lra.
    + rewrite Qabs_neg in Hn by lra. lra.
Qed.

End Rounding.

(** ** Scenario effects on the generator *)

Lemma initial_inactive (name : string) : active (get_entry SCENARIO_STATE name) = false.
Proof.
  unfold get_entry, SCENARIO_STATE.
  rewrite !lookup_insert.
  repeat case_decide; try reflexivity.
  rewrite lookup_singleton. case_decide; reflexivity.
Qed.

Lemma initial_applies (name : string) (b : Z) : applies (get_entry SCENARIO_STATE name) b = false.
Proof. unfold applies. rewrite initial_inactive. reflexivity. Qed.

(** With every scenario inactive for the building, the values are left alone. *)
Lemma apply_scenarios_none (rand : nat -> Q) (fl : Q -> Q) st b t h c p k :
  applies (get_entry st "temperature_spike") b = false ->
  applies (get_entry st "humidity_drop") b = false ->
  applies (get_entry st "co2_alarm") b = false ->
  applies (get_entry st "equipment_failure") b = false ->
  apply_scenarios rand fl st b (t, h, c, p, k) = (Ret (t, h, c, p), k).
Proof.
  intros H1 H2 H3 H4.
  unfold apply_scenarios. rewrite H1, H2, H3, H4. reflexivity.
Qed.

Lemma base_values_range (b : Z) (zt zh : Z) :
  base_temps b = Some (inject_Z zt) -> base_humidity b = Some (inject_Z zh) ->
  20 <= zt <= 26 /\ 47 <= zh <= 55.
Proof.
  intros Hbt Hbh.
  assert (Hb : 1 <= b <= 5) by (apply base_temps_Some; eauto).
  assert (b = 1 \/ b = 2 \/ b = 3 \/ b = 4 \/ b = 5) as Hc by lia.
  destruct Hc as [-> | [-> | [-> | [-> | ->]]]]; cbn in Hbt, Hbh;
    injection Hbt as <-; injection Hbh as <-; lia.
Qed.

(** The normal values of a reading: every one is a rounded float, within
    its range when the draws are in [0, 1]. *)
Lemma normal_values_shape (rand : nat -> Q) (fl : Q -> Q) bt bh k :
  exists t0 h0 c0 p0,
    normal_values rand fl bt bh k = (fl t0, fl h0, fl c0, fl p0, S (S (S (S k)))).
Proof. unfold normal_values, uniform. eauto. Qed.

Lemma normal_values_bounds (rand : nat -> Q) (fl : Q -> Q) (zt zh : Z) k t h c p k4 :
  float_rounding fl -> (forall j, 0 <= rand j <= 1)%Q ->
  0 <= zt <= 100 -> 0 <= zh <= 100 ->
  normal_values rand fl (inject_Z zt) (inject_Z zh) k = (t, h, c, p, k4) ->
  (inject_Z (zt - 2) <= t <= inject_Z (zt + 2))%Q /\
  (inject_Z (zh - 5) <= h <= inject_Z (zh + 5))%Q /\
  (inject_Z 400 <= c <= inject_Z 600)%Q /\
  (inject_Z 990 <= p <= inject_Z 1020)%Q /\ k4 = S (S (S (S k))).
Proof.
  intros Hfl Hr Hzt Hzh E. unfold normal_values in E.
  destruct (uniform rand fl (-2 # 1) (2 # 1) k) as [u1 k1] eqn:E1.
  destruct (uniform rand fl (-5 # 1) (5 # 1) k1) as [u2 k2] eqn:E2.
  destruct (uniform rand fl (400 # 1) (600 # 1) k2) as [u3 k3] eqn:E3.
  destruct (uniform rand fl (990 # 1) (1020 # 1) k3) as [u4 k4'] eqn:E4.
  injection E as <- <- <- <- <-.
  destruct (uniform_bounds fl Hfl rand (-2) 2 k u1 k1 (Hr k) ltac:(lia) ltac:(lia) ltac:(lia)
              ltac:(lia) E1) as [U1 ->].
  destruct (uniform_bounds fl Hfl rand (-5) 5 (S k) u2 k2 (Hr (S k)) ltac:(lia) ltac:(lia)
              ltac:(lia) ltac:(lia) E2) as [U2 ->].
  destruct (uniform_bounds fl Hfl rand 400 600 (S (S k)) u3 k3 (Hr (S (S k))) ltac:(lia)
              ltac:(lia) ltac:(lia) ltac:(lia) E3) as [U3 ->].
  destruct (uniform_bounds fl Hfl rand 990 1020 (S (S (S k))) u4 k4' (Hr (S (S (S k))))
              ltac:(lia) ltac:(lia) ltac:(lia) ltac:(lia) E4) as [U4 ->].
  split; [|split; [|split; [exact U3 | split; [exact U4 | reflexivity]]]].
  - apply fl_bounds; [exact Hfl | lia | lia |].
    assert (inject_Z (zt - 2) == inject_Z zt + inject_Z (-2))%Q by (unfold Qeq; simpl; lia).
    assert (inject_Z (zt + 2) == inject_Z zt + inject_Z 2)%Q by (unfold Qeq; simpl; lia).
    lra.
  - apply fl_bounds; [exact Hfl | lia | lia |].
    assert (inject_Z (zh - 5) == inject_Z zh + inject_Z (-5))%Q by (unfold Qeq; simpl; lia).
    assert (inject_Z (zh + 5) == inject_Z zh + inject_Z 5)%Q by (unfold Qeq; simpl; lia).
    lra.
Qed.

(** ** generate_sensor_reading: bounds *)

(** [C1] (amended) [generate_sensor_reading] has no configured
    [min, max], no pin state and no clamp. When no scenario is active
    for the sensor's building and the draws lie in [0, 1], the reading
    stays in the ranges of its normal draws: temperature within 2 of the
    building's base temperature, humidity within 5 of its base humidity,
    co2 in [400, 600] and pressure in [990, 1020], for every rounding
    of the float operations with the properties of binary64. *)
Theorem reading_bounds_without_scenario (rand : nat -> Q) (fl : Q -> Q) (st : gmap string entry)
    (now s b c : Z) (k : nat) (zt zh : Z) (r : reading) (k' : nat) :
  float_rounding fl ->
  (forall j, 0 <= rand j <= 1)%Q ->
  applies (get_entry st "temperature_spike") b = false ->
  applies (get_entry st "humidity_drop") b = false ->
  applies (get_entry st "co2_alarm") b = false ->
  applies (get_entry st "equipment_failure") b = false ->
  base_temps b = Some (inject_Z zt) -> base_humidity b = Some (inject_Z zh) ->
  generate_sensor_reading rand fl st now s b c k = (Ret r, k') ->
  (inject_Z (zt - 2) <= r_temperature r <= inject_Z (zt + 2))%Q /\
  (inject_Z (zh - 5) <= r_humidity r <= inject_Z (zh + 5))%Q /\
  (inject_Z 400 <= r_co2 r <= inject_Z 600)%Q /\
  (inject_Z 990 <= r_pressure r <= inject_Z 1020)%Q.
Proof.
  intros Hfl Hr H1 H2 H3 H4 Hbt Hbh Hgen.
  destruct (base_values_range b zt zh Hbt Hbh) as [Hzt Hzh].
  unfold generate_sensor_reading in Hgen. rewrite Hbt, Hbh in Hgen.
  destruct (normal_values rand fl (inject_Z zt) (inject_Z zh) k) as [[[[t h] co] p] k4] eqn:En.
  destruct (normal_values_bounds rand fl zt zh k t h co p k4 Hfl Hr ltac:(lia) ltac:(lia) En)
    as (Ut & Uh & Uc & Up & _).
  rewrite apply_scenarios_none in Hgen by assumption.
  injection Hgen as <- _. cbn [r_temperature r_humidity r_co2 r_pressure].
  split; [|split; [|split]]; apply fl_round2_bounds; try exact Hfl; try lia; assumption.
Qed.

Lemma reading_bounds_without_scenario_witness :
  exists r k',
    generate_sensor_reading mid_draws id SCENARIO_STATE 0 1 1 1 0 = (Ret r, k') /\
    (inject_Z (20 - 2) <= r_temperature r <= inject_Z (20 + 2))%Q /\
    (inject_Z (47 - 5) <= r_humidity r <= inject_Z (47 + 5))%Q /\
    (inject_Z 400 <= r_co2 r <= inject_Z 600)%Q /\
    (inject_Z 990 <= r_pressure r <= inject_Z 1020)%Q.
Proof.
  destruct (generate_sensor_reading mid_draws id SCENARIO_STATE 0 1 1 1 0) as [ro k'] eqn:Hg.
  assert (Hro : exists r, ro = Ret r) by (vm_compute in Hg; injection Hg as <- _; eauto).
  destruct Hro as [r ->]. exists r, k'. split; [reflexivity|].
  apply (reading_bounds_without_scenario mid_draws id SCENARIO_STATE 0 1 1 1 0 20 47 r k');
    try apply float_rounding_id; try apply initial_applies; try reflexivity; try exact Hg.
  intros j. unfold mid_draws. split; lra.
Defined.

(** A trigger of [ty] for building [b] with intensity [i] from the
    initial state, the sensor query returning no rows. *)
Definition triggered_state (ty : string) (b : Z) (i : json) : gmap string entry :=
  snd (Scenarios.trigger_scenario SCENARIO_STATE
         (Some (mk_request (Some ty) (Some (JInt b)) (Some i) None)) (fun _ => Some []) 0).

Lemma get_entry_insert (st : gmap string entry) (ty name : string) (e : entry) :
  get_entry (<[ ty := e ]> st) name = if decide (ty = name) then e else get_entry st name.
Proof. unfold get_entry. rewrite lookup_insert. case_decide; reflexivity. Qed.

Lemma triggered_state_eq (ty : string) (b : Z) (i : json) :
  ty ∈ Scenarios.scenario_names -> i <> JNull ->
  triggered_state ty b i =
  <[ ty := mk_entry true (JInt b) (Some i) (Some 0) (Some (JInt 300)) (Some []) None ]> SCENARIO_STATE.
Proof.
  intros Hin Hi.
  destruct (run_lookup_Some [] ty Hin) as [e0 He0].
  unfold triggered_state.
  rewrite (trigger_success SCENARIO_STATE (mk_request (Some ty) (Some (JInt b)) (Some i) None)
             ty e0 (fun _ => Some []) 0 [] eq_refl He0 eq_refl).
  unfold Scenarios.intensity_of. cbn [req_intensity].
  destruct i; try congruence; reflexivity.
Qed.

(** The temperature a trigger of temperature_spike for building 1 with
    intensity [i] produces for sensor 1 under [mid_draws], in binary64. *)
Definition spike_temperature (i : json) : option Q :=
  match fst (generate_sensor_reading mid_draws fl64
               (triggered_state "temperature_spike" 1 i) 0 1 1 1 0) with
  | Ret r => Some (r_temperature r)
  | Raise _ => None
  end.

(** [C1] The claim fails: in binary64, with all draws 1/2, a
    temperature_spike for building 1 with the intensity [10^300] makes
    sensor 1 report a temperature above [10^299], so no bound below it
    holds for every intensity. *)
Lemma reading_unbounded_counterexample :
  ~ (exists hi : Q, (hi <= inject_Z (10 ^ 299))%Q /\
       forall (i : json) (t : Q), spike_temperature i = Some t -> (t <= hi)%Q).
Proof.
  intros (hi & Hhi & H).
  assert (Ht : exists t, spike_temperature (JInt (10 ^ 300)) = Some t /\
                         (inject_Z (10 ^ 299) < t)%Q).
  { eexists. split; [vm_compute; reflexivity|]. vm_compute. reflexivity. }
  destruct Ht as (t & Ht & Hlt).
  specialize (H _ t Ht). lra.
Qed.

(** ** Scenario scoping *)

(** The reading built from the values after the scenarios (the return
    statement of [generate_sensor_reading]). *)
Definition round_values (fl : Q -> Q) (s b c now : Z) (o : outcome (Q * Q * Q * Q) * nat)
    : outcome reading * nat :=
  match o with
  | (Ret (t, h, co, p), k) =>
      (Ret (mk_reading s (fl (round2 t)) (fl (round2 h)) (fl (round2 co)) (fl (round2 p))
              b c now), k)
  | (Raise e, k) => (Raise e, k)
  end.

Lemma generate_sensor_reading_eq (rand : nat -> Q) (fl : Q -> Q) st now s b c k bt bh :
  base_temps b = Some bt -> base_humidity b = Some bh ->
  generate_sensor_reading rand fl st now s b c k
  = round_values fl s b c now (apply_scenarios rand fl st b (normal_values rand fl bt bh k)).
Proof.
  intros Hbt Hbh. unfold generate_sensor_reading. rewrite Hbt, Hbh.
  destruct (apply_scenarios _ _ _ _ _) as [[[[[t h] co] p]|e] k']; reflexivity.
Qed.

(** The values after the float operation of line 77, 82 or 87 on the
    value [ty] targets, with the float [q] of the intensity. *)
Definition shifted_values (fl : Q -> Q) (ty : string) (q : Q) (vals : Q * Q * Q * Q)
    : Q * Q * Q * Q :=
  let '(t, h, c, p) := vals in
  if String.eqb ty "temperature_spike" then (fl (t + fl q)%Q, h, c, p)
  else if String.eqb ty "humidity_drop" then (t, fl (h - fl q)%Q, c, p)
  else if String.eqb ty "co2_alarm" then (t, h, fl (c + fl q)%Q, p)
  else (t, h, c, p).

Lemma apply_scenarios_triggered (rand : nat -> Q) (fl : Q -> Q) (ty : string) (b b' : Z)
    (i : json) t h c p k :
  ty ∈ ({[ "temperature_spike"; "humidity_drop"; "co2_alarm" ]} : gset string) -> i <> JNull ->
  apply_scenarios rand fl (triggered_state ty b i) b' (t, h, c, p, k) =
  if Z.eqb b' b then
    match float_operand i with
    | Ret q => (Ret (shifted_values fl ty q (t, h, c, p)), k)
    | Raise e => (Raise e, k)
    end
  else (Ret (t, h, c, p), k).
Proof.
  intros Hin Hi.
  assert (Hin4 : ty ∈ Scenarios.scenario_names)
    by (unfold Scenarios.scenario_names; set_solver).
  rewrite triggered_state_eq by assumption.
  assert (Hty : ty = "temperature_spike"%string \/ ty = "humidity_drop"%string \/
                ty = "co2_alarm"%string) by set_solver.
  destruct Hty as [-> | [-> | ->]]; unfold apply_scenarios; rewrite !get_entry_insert;
    repeat case_decide; try congruence;
    rewrite ?initial_applies; unfold applies; cbn [active building_id intensity default];
    (destruct (Z.eqb_spec b' b) as [-> | Hne];
     [rewrite bool_decide_eq_true_2 by reflexivity
     | rewrite bool_decide_eq_false_2 by (cbn; congruence)]); try reflexivity;
    unfold py_add, py_sub, id; cbn [andb]; destruct (float_operand i); reflexivity.
Qed.

(** [C2] (amended) For any fixed draws, activating temperature_spike,
    humidity_drop or co2_alarm for building [b] (from the initial state)
    leaves every reading of another building identical. For building [b]
    only the targeted value changes: with a numeric intensity, the float
    operation of the source (temperature + i, humidity - i, co2 + i) is
    applied to it before the reading rounds it to two decimals, so the
    reported value moves in the direction of the intensity (for a
    rounding of the float operations with the properties of binary64);
    an intensity that is not a number makes the reading raise. *)
Theorem scenario_scoped_shift (rand : nat -> Q) (fl : Q -> Q) (ty : string) (b : Z) (i : json)
    (now s c : Z) (k : nat) :
  ty ∈ ({[ "temperature_spike"; "humidity_drop"; "co2_alarm" ]} : gset string) ->
  i <> JNull ->
  (forall b', b' <> b ->
     generate_sensor_reading rand fl (triggered_state ty b i) now s b' c k
     = generate_sensor_reading rand fl SCENARIO_STATE now s b' c k) /\
  (forall bt bh, base_temps b = Some bt -> base_humidity b = Some bh ->
     let '(t, h, co, p, k4) := normal_values rand fl bt bh k in
     generate_sensor_reading rand fl SCENARIO_STATE now s b c k
     = round_values fl s b c now (Ret (t, h, co, p), k4) /\
     generate_sensor_reading rand fl (triggered_state ty b i) now s b c k
     = match float_operand i with
       | Ret q => round_values fl s b c now (Ret (shifted_values fl ty q (t, h, co, p)), k4)
       | Raise e => (Raise e, k4)
       end) /\
  (float_rounding fl -> forall q r1 r0 k1 k0, float_operand i = Ret q ->
     generate_sensor_reading rand fl (triggered_state ty b i) now s b c k = (Ret r1, k1) ->
     generate_sensor_reading rand fl SCENARIO_STATE now s b c k = (Ret r0, k0) ->
     k1 = k0 /\ r_pressure r1 = r_pressure r0 /\
     (r_sensor_id r1, r_building_id r1, r_controller_id r1, r_timestamp r1)
       = (r_sensor_id r0, r_building_id r0, r_controller_id r0, r_timestamp r0) /\
     (ty = "temperature_spike"%string ->
        r_humidity r1 = r_humidity r0 /\ r_co2 r1 = r_co2 r0 /\
        ((0 <= q)%Q -> (r_temperature r0 <= r_temperature r1)%Q) /\
        ((q <= 0)%Q -> (r_temperature r1 <= r_temperature r0)%Q)) /\
     (ty = "humidity_drop"%string ->
        r_temperature r1 = r_temperature r0 /\ r_co2 r1 = r_co2 r0 /\
        ((0 <= q)%Q -> (r_humidity r1 <= r_humidity r0)%Q) /\
        ((q <= 0)%Q -> (r_humidity r0 <= r_humidity r1)%Q)) /\
     (ty = "co2_alarm"%string ->
        r_temperature r1 = r_temperature r0 /\ r_humidity r1 = r_humidity r0 /\
        ((0 <= q)%Q -> (r_co2 r0 <= r_co2 r1)%Q) /\
        ((q <= 0)%Q -> (r_co2 r1 <= r_co2 r0)%Q))).
Proof.
  intros Hin Hi.
  assert (Hoff : forall b' t h co p k4,
             apply_scenarios rand fl SCENARIO_STATE b' (t, h, co, p, k4) = (Ret (t, h, co, p), k4))
    by (intros; apply apply_scenarios_none; apply initial_applies).
  assert (Hpart2 : forall bt bh, base_temps b = Some bt -> base_humidity b = Some bh ->
     let '(t, h, co, p, k4) := normal_values rand fl bt bh k in
     generate_sensor_reading rand fl SCENARIO_STATE now s b c k
     = round_values fl s b c now (Ret (t, h, co, p), k4) /\
     generate_sensor_reading rand fl (triggered_state ty b i) now s b c k
     = match float_operand i with
       | Ret q => round_values fl s b c now (Ret (shifted_values fl ty q (t, h, co, p)), k4)
       | Raise e => (Raise e, k4)
       end).
  { intros bt bh Hbt Hbh.
    rewrite !(generate_sensor_reading_eq rand fl _ now s b c k bt bh Hbt Hbh).
    destruct (normal_values rand fl bt bh k) as [[[[t h] co] p] k4].
    rewrite apply_scenarios_triggered, Z.eqb_refl by assumption.
    rewrite Hoff. split; [reflexivity|].
    destruct (float_operand i); reflexivity. }
  split; [|split; [exact Hpart2|]].
  - intros b' Hb'.
    destruct (base_temps b') as [bt|] eqn:Hbt;
      [|unfold generate_sensor_reading; rewrite Hbt; reflexivity].
    destruct (base_humidity b') as [bh|] eqn:Hbh;
      [|unfold generate_sensor_reading; rewrite Hbt, Hbh; reflexivity].
    rewrite !(generate_sensor_reading_eq rand fl _ now s b' c k bt bh Hbt Hbh).
    destruct (normal_values rand fl bt bh k) as [[[[t h] co] p] k4].
    rewrite apply_scenarios_triggered by assumption.
    rewrite (proj2 (Z.eqb_neq b' b) Hb'), Hoff. reflexivity.
  - intros Hfl q r1 r0 k1 k0 Hq H1 H0.
    destruct (base_temps b) as [bt|] eqn:Hbt;
      [|unfold generate_sensor_reading in H0; rewrite Hbt in H0; discriminate].
    destruct (base_humidity b) as [bh|] eqn:Hbh;
      [|unfold generate_sensor_reading in H0; rewrite Hbt, Hbh in H0; discriminate].
    pose proof (Hpart2 bt bh eq_refl eq_refl) as Hp.
    destruct (normal_values_shape rand fl bt bh k) as (t0 & h0 & c0 & p0 & En).
    rewrite En in Hp. destruct Hp as [E0 E1].
    rewrite E1, Hq in H1. rewrite E0 in H0.
    assert (Hq0 : forall x : Q, (0 <= q)%Q -> (fl x <= fl (fl x + fl q))%Q).
    { intros x Hq0. rewrite <- (fl_idem fl Hfl x) at 1. apply (fl_mono fl Hfl).
      assert (0 <= fl q)%Q.
      { rewrite <- (fl_Z fl Hfl 0 0%Q ltac:(lia) (Qeq_refl _)). apply (fl_mono fl Hfl), Hq0. }
      lra. }
    assert (Hq1 : forall x : Q, (q <= 0)%Q -> (fl (fl x + fl q) <= fl x)%Q).
    { intros x Hq1. rewrite <- (fl_idem fl Hfl x) at 2. apply (fl_mono fl Hfl).
      assert (fl q <= 0)%Q.
      { rewrite <- (fl_Z fl Hfl 0 0%Q ltac:(lia) (Qeq_refl _)). apply (fl_mono fl Hfl), Hq1. }
      lra. }
    assert (Hq2 : forall x : Q, (0 <= q)%Q -> (fl (fl x - fl q) <= fl x)%Q).
    { intros x Hq2. rewrite <- (fl_idem fl Hfl x) at 2. apply (fl_mono fl Hfl).
      assert (0 <= fl q)%Q.
      { rewrite <- (fl_Z fl Hfl 0 0%Q ltac:(lia) (Qeq_refl _)). apply (fl_mono fl Hfl), Hq2. }
      lra. }
    assert (Hq3 : forall x : Q, (q <= 0)%Q -> (fl x <= fl (fl x - fl q))%Q).
    { intros x Hq3. rewrite <- (fl_idem fl Hfl x) at 1. apply (fl_mono fl Hfl).
      assert (fl q <= 0)%Q.
      { rewrite <- (fl_Z fl Hfl 0 0%Q ltac:(lia) (Qeq_refl _)). apply (fl_mono fl Hfl), Hq3. }
      lra. }
    assert (Hr : forall x y : Q, (x <= y)%Q -> (fl (round2 x) <= fl (round2 y))%Q)
      by (intros x y Hxy; apply (fl_mono fl Hfl), round2_mono, Hxy).
    assert (Hty : ty = "temperature_spike"%string \/ ty = "humidity_drop"%string \/
                  ty = "co2_alarm"%string) by set_solver.
    destruct Hty as [-> | [-> | ->]]; cbn in H1, H0;
      injection H1 as <- <-; injection H0 as <- <-; cbn;
      (split; [reflexivity | split; [reflexivity | split; [reflexivity |]]]);
      repeat split; try discriminate; try reflexivity; intros Hs; apply Hr; auto.
Qed.

Lemma scenario_scoped_shift_witness :
  generate_sensor_reading mid_draws id (triggered_state "temperature_spike" 1 (JInt 10)) 0 1 2 1 0
  = generate_sensor_reading mid_draws id SCENARIO_STATE 0 1 2 1 0 /\
  exists r1 r0 k1 k0,
    generate_sensor_reading mid_draws id (triggered_state "temperature_spike" 1 (JInt 10)) 0 1 1 1 0
      = (Ret r1, k1) /\
    generate_sensor_reading mid_draws id SCENARIO_STATE 0 1 1 1 0 = (Ret r0, k0) /\
    (r_temperature r0 <= r_temperature r1)%Q /\ r_humidity r1 = r_humidity r0.
Proof.
  assert (Hin : "temperature_spike"%string ∈
                ({[ "temperature_spike"; "humidity_drop"; "co2_alarm" ]} : gset string))
    by set_solver.
  destruct (scenario_scoped_shift mid_draws id "temperature_spike" 1 (JInt 10) 0 1 1 0 Hin
              ltac:(discriminate)) as [Hother [_ Hshift]].
  split; [apply Hother; discriminate|].
  destruct (generate_sensor_reading mid_draws id (triggered_state "temperature_spike" 1 (JInt 10))
              0 1 1 1 0) as [[r1|e1] k1] eqn:E1; [|vm_compute in E1; discriminate].
  destruct (generate_sensor_reading mid_draws id SCENARIO_STATE 0 1 1 1 0)
    as [[r0|e0] k0] eqn:E0; [|vm_compute in E0; discriminate].
  exists r1, r0, k1, k0. split; [reflexivity|]. split; [reflexivity|].
  destruct (Hshift float_rounding_id (inject_Z 10) r1 r0 k1 k0 eq_refl eq_refl eq_refl)
    as (_ & _ & _ & Hts & _).
  destruct (Hts eq_refl) as (Hh & _ & Ht & _).
  split; [apply Ht; unfold Qle; simpl; lia | exact Hh].
Defined.

(** The draws of the counterexample below: a first draw of
    [4537376624575768 / 2^53] (a value [random.random()] can return),
    then 1/2. *)
Definition spike_draws : nat -> Q :=
  fun j => if Nat.eqb j 0 then 4537376624575768 # 9007199254740992 else 1 # 2.

(** [C2] The claim fails for the reported reading: in binary64, for
    sensor 25 of building 3 under [spike_draws], the temperature is 23.01
    with no scenario and 33.02 with a temperature_spike of the default
    intensity 10 for building 3 (the unrounded 23.014999999999997 becomes
    33.015), which is not 23.01 + 10. *)
Lemma spike_rounding_counterexample :
  exists r1 r0 k1 k0,
    generate_sensor_reading spike_draws fl64 (triggered_state "temperature_spike" 3 (JInt 10))
      0 25 3 7 0 = (Ret r1, k1) /\
    generate_sensor_reading spike_draws fl64 SCENARIO_STATE 0 25 3 7 0 = (Ret r0, k0) /\
    r_temperature r0 = fl64 (2301 # 100) /\ r_temperature r1 = fl64 (3302 # 100) /\
    ~ (r_temperature r1 == r_temperature r0 + 10)%Q.
Proof.
  do 4 eexists. split; [vm_compute; reflexivity|]. split; [vm_compute; reflexivity|].
  split; [vm_compute; reflexivity|]. split; [vm_compute; reflexivity|].
  vm_compute. intros H. discriminate H.
Qed.

(** ** Equipment failure *)

Lemma apply_scenarios_failure (rand : nat -> Q) (fl : Q -> Q) st b t h c p k t1 :
  applies (get_entry st "equipment_failure") b = true ->
  scenarios_ok st b = true ->
  (if applies (get_entry st "temperature_spike") b
   then py_add fl t (default (JInt 10) (intensity (get_entry st "temperature_spike")))
   else Ret t) = Ret t1 ->
  apply_scenarios rand fl st b (t, h, c, p, k) =
  (Ret (fl (t1 + fst (uniform rand fl (-10 # 1) (10 # 1) k))%Q,
        fst (uniform rand fl (0 # 1) (100 # 1) (S k)),
        fst (uniform rand fl (0 # 1) (2000 # 1) (S (S k))),
        fst (uniform rand fl (900 # 1) (1100 # 1) (S (S (S k))))),
   S (S (S (S k)))).
Proof.
  intros Hf Hok Ht. unfold apply_scenarios. cbv zeta. rewrite Ht, Hf.
  unfold scenarios_ok, adjustment_ok in Hok. unfold py_sub, py_add.
  destruct (applies (get_entry st "humidity_drop") b);
  destruct (applies (get_entry st "co2_alarm") b);
  destruct (float_operand (default (JInt 15) (intensity (get_entry st "humidity_drop"))));
  destruct (float_operand (default (JInt 400) (intensity (get_entry st "co2_alarm"))));
  rewrite ?andb_false_r in Hok; cbn in Hok; try discriminate; reflexivity.
Qed.

(** [C10] (amended) When equipment_failure is active for the building,
    the reading depends on the scenario dict only through the
    temperature_spike and equipment_failure entries, as long as the
    humidity_drop and co2_alarm adjustments do not raise: their results
    are overwritten, and humidity, co2 and pressure are the next three
    draws of [uniform(0, 100)], [uniform(0, 2000)] and
    [uniform(900, 1100)]; the temperature keeps the temperature_spike
    adjustment plus a [uniform(-10, 10)] draw. With draws in [0, 1]
    these lie in the stated ranges. An adjustment that raises (an
    intensity that is not a number) makes the reading raise, although
    its result would have been overwritten. *)
Theorem equipment_failure_overrides (rand : nat -> Q) (fl : Q -> Q) (st st' : gmap string entry)
    (now s b c : Z) (k : nat) (bt bh : Q) :
  applies (get_entry st "equipment_failure") b = true ->
  get_entry st' "equipment_failure" = get_entry st "equipment_failure" ->
  get_entry st' "temperature_spike" = get_entry st "temperature_spike" ->
  base_temps b = Some bt -> base_humidity b = Some bh ->
  (scenarios_ok st b = true -> scenarios_ok st' b = true ->
   generate_sensor_reading rand fl st' now s b c k = generate_sensor_reading rand fl st now s b c k) /\
  (scenarios_ok st b = false ->
   exists e, generate_sensor_reading rand fl st now s b c k = (Raise e, S (S (S (S k))))) /\
  (scenarios_ok st b = true ->
   let '(t0, _, _, _, k4) := normal_values rand fl bt bh k in
   let ts := get_entry st "temperature_spike" in
   let u := fst (uniform rand fl (-10 # 1) (10 # 1) k4) in
   let h := fst (uniform rand fl 0 (100 # 1) (S k4)) in
   let co := fst (uniform rand fl 0 (2000 # 1) (S (S k4))) in
   let p := fst (uniform rand fl (900 # 1) (1100 # 1) (S (S (S k4)))) in
   exists t1,
     (if applies ts b then py_add fl t0 (default (JInt 10) (intensity ts)) else Ret t0) = Ret t1 /\
     generate_sensor_reading rand fl st now s b c k
     = (Ret (mk_reading s (fl (round2 (fl (t1 + u)%Q))) (fl (round2 h)) (fl (round2 co))
               (fl (round2 p)) b c now), S (S (S (S k4)))) /\
     (float_rounding fl -> (forall j, 0 <= rand j <= 1)%Q ->
      (-10 # 1 <= u <= 10 # 1)%Q /\ (0 <= fl (round2 h) <= 100 # 1)%Q /\
      (0 <= fl (round2 co) <= 2000 # 1)%Q /\ (900 # 1 <= fl (round2 p) <= 1100 # 1)%Q)).
Proof.
  intros Hfail Hef Hts Hbt Hbh.
  assert (Hb : 1 <= b <= 5) by (apply base_temps_Some; eauto).
  rewrite !(generate_sensor_reading_eq rand fl _ now s b c k bt bh Hbt Hbh).
  destruct (normal_values_shape rand fl bt bh k) as (t0' & h0' & c0' & p0' & En).
  rewrite En. set (t0 := fl t0').
  assert (Hspike : forall st0, get_entry st0 "temperature_spike" = get_entry st "temperature_spike" ->
            scenarios_ok st0 b = true ->
            exists t1, (if applies (get_entry st "temperature_spike") b
                        then py_add fl t0 (default (JInt 10) (intensity (get_entry st "temperature_spike")))
                        else Ret t0) = Ret t1).
  { intros st0 Hts0 Hok. unfold scenarios_ok, adjustment_ok in Hok. rewrite Hts0 in Hok.
    unfold py_add.
    destruct (applies (get_entry st "temperature_spike") b); [|eauto].
    destruct (float_operand (default (JInt 10) (intensity (get_entry st "temperature_spike"))));
      [eauto|].
    cbn in Hok. discriminate. }
  split; [|split].
  - intros Hok Hok'.
    destruct (Hspike st eq_refl Hok) as [t1 Ht1].
    rewrite (apply_scenarios_failure rand fl st b _ _ _ _ _ t1 Hfail Hok Ht1).
    rewrite (apply_scenarios_failure rand fl st' b _ _ _ _ _ t1); try congruence.
    rewrite Hts. exact Ht1.
  - intros Hko.
    destruct (apply_scenarios_result rand fl st b t0 (fl h0') (fl c0') (fl p0') (S (S (S (S k)))))
      as [Hr _].
    destruct (Hr Hko) as [e ->]. exists e. reflexivity.
  - intros Hok. cbv zeta.
    destruct (Hspike st eq_refl Hok) as [t1 Ht1].
    exists t1. split; [exact Ht1|].
    rewrite (apply_scenarios_failure rand fl st b _ _ _ _ _ t1 Hfail Hok Ht1).
    split; [reflexivity|].
    intros Hfl Hr.
    set (k4 := S (S (S (S k)))).
    destruct (uniform rand fl (-10 # 1) (10 # 1) k4) as [u ku] eqn:U1.
    destruct (uniform rand fl 0 (100 # 1) (S k4)) as [hh kh] eqn:U2.
    destruct (uniform rand fl 0 (2000 # 1) (S (S k4))) as [cc kc] eqn:U3.
    destruct (uniform rand fl (900 # 1) (1100 # 1) (S (S (S k4)))) as [pp kp] eqn:U4.
    cbn [fst].
    destruct (uniform_bounds fl Hfl rand (-10) 10 k4 u ku (Hr k4) ltac:(lia) ltac:(lia)
                ltac:(lia) ltac:(lia) U1) as [B1 _].
    destruct (uniform_bounds fl Hfl rand 0 100 (S k4) hh kh (Hr (S k4)) ltac:(lia) ltac:(lia)
                ltac:(lia) ltac:(lia) U2) as [B2 _].
    destruct (uniform_bounds fl Hfl rand 0 2000 (S (S k4)) cc kc (Hr (S (S k4))) ltac:(lia)
                ltac:(lia) ltac:(lia) ltac:(lia) U3) as [B3 _].
    destruct (uniform_bounds fl Hfl rand 900 1100 (S (S (S k4))) pp kp (Hr (S (S (S k4))))
                ltac:(lia) ltac:(lia) ltac:(lia) ltac:(lia) U4) as [B4 _].
    split; [exact B1|].
    split; [|split]; [apply (fl_round2_bounds fl Hfl _ 0 100)
                     | apply (fl_round2_bounds fl Hfl _ 0 2000)
                     | apply (fl_round2_bounds fl Hfl _ 900 1100)]; try lia; assumption.
Qed.

(** Equipment failure, then a humidity_drop with intensity [i], both
    triggered for building 1. *)
Definition failure_and_drop_ops (i : json) : list Scenarios.op :=
  [Scenarios.Trigger (Some (mk_request (Some "equipment_failure"%string) (Some (JInt 1)) None None))
     (fun _ => Some []) 0;
   Scenarios.Trigger (Some (mk_request (Some "humidity_drop"%string) (Some (JInt 1)) (Some i) None))
     (fun _ => Some []) 0].

Definition failure_only_ops : list Scenarios.op := firstn 1 (failure_and_drop_ops JNull).

Lemma equipment_failure_overrides_witness :
  applies (get_entry (Scenarios.run failure_only_ops) "equipment_failure") 1 = true /\
  generate_sensor_reading mid_draws id (Scenarios.run (failure_and_drop_ops (JInt 30))) 0 1 1 1 0
  = generate_sensor_reading mid_draws id (Scenarios.run failure_only_ops) 0 1 1 1 0.
Proof.
  assert (Happ : applies (get_entry (Scenarios.run failure_only_ops) "equipment_failure") 1 = true)
    by (vm_compute; reflexivity).
  split; [exact Happ|].
  assert (Hef : get_entry (Scenarios.run (failure_and_drop_ops (JInt 30))) "equipment_failure"
                = get_entry (Scenarios.run failure_only_ops) "equipment_failure")
    by (vm_compute; reflexivity).
  assert (Hts : get_entry (Scenarios.run (failure_and_drop_ops (JInt 30))) "temperature_spike"
                = get_entry (Scenarios.run failure_only_ops) "temperature_spike")
    by (vm_compute; reflexivity).
  destruct (equipment_failure_overrides mid_draws id (Scenarios.run failure_only_ops)
              (Scenarios.run (failure_and_drop_ops (JInt 30))) 0 1 1 1 0 (20 # 1) (47 # 1)
              Happ Hef Hts eq_refl eq_refl) as [Heq _].
  apply Heq; vm_compute; reflexivity.
Defined.

(** [C10] The claim fails: in binary64, with equipment_failure active
    for building 1, a humidity_drop for building 1 with the intensity
    "5" makes [generate_sensor_reading] raise [TypeError] at line 82,
    before the overwrite, while with the intensity 30 the reading is the
    same as with equipment_failure alone. *)
Lemma failure_overwrite_counterexample :
  generate_sensor_reading mid_draws fl64 (Scenarios.run (failure_and_drop_ops (JInt 30))) 0 1 1 1 0
  = generate_sensor_reading mid_draws fl64 (Scenarios.run failure_only_ops) 0 1 1 1 0 /\
  is_ret (fst (generate_sensor_reading mid_draws fl64 (Scenarios.run failure_only_ops) 0 1 1 1 0))
  = true /\
  generate_sensor_reading mid_draws fl64 (Scenarios.run (failure_and_drop_ops (JStr "5"))) 0 1 1 1 0
  = (Raise TypeError, 4%nat).
Proof. split; [|split]; vm_compute; reflexivity. Qed.

(** * Further properties of the generator and the endpoints *)

(** ** Draw accounting and the KeyError of generate_sensor_reading *)

Lemma float_operand_not_key (v : json) : float_operand v <> Raise KeyError.
Proof. destruct v; cbn; try discriminate. destruct (_ <? _); discriminate. Qed.

(** The scenario adjustments raise only [TypeError] or [OverflowError]. *)
Lemma apply_scenarios_not_key (rand : nat -> Q) (fl : Q -> Q) st b vals e k' :
  apply_scenarios rand fl st b vals = (Raise e, k') -> e <> KeyError.
Proof.
  destruct vals as [[[[t h] c] p] k]. unfold apply_scenarios, py_add, py_sub. cbv zeta.
  pose proof (float_operand_not_key (default (JInt 10) (intensity (get_entry st "temperature_spike")))).
  pose proof (float_operand_not_key (default (JInt 15) (intensity (get_entry st "humidity_drop")))).
  pose proof (float_operand_not_key (default (JInt 400) (intensity (get_entry st "co2_alarm")))).
  destruct (applies (get_entry st "temperature_spike") b);
  destruct (applies (get_entry st "humidity_drop") b);
  destruct (applies (get_entry st "co2_alarm") b);
  destruct (applies (get_entry st "equipment_failure") b);
  destruct (float_operand (default (JInt 10) (intensity (get_entry st "temperature_spike"))));
  destruct (float_operand (default (JInt 15) (intensity (get_entry st "humidity_drop"))));
  destruct (float_operand (default (JInt 400) (intensity (get_entry st "co2_alarm"))));
  cbn; intros E; inversion E; subst; congruence.
Qed.

(** [X1] [generate_sensor_reading] raises the KeyError of
    [base_temps[building_id]] exactly for a building outside 1..5, and
    then before any random draw; for buildings 1..5 it returns a reading
    exactly when no scenario adjustment raises. *)
Theorem generate_sensor_reading_key_error (rand : nat -> Q) (fl : Q -> Q) (st : gmap string entry)
    (now s b c : Z) (k : nat) :
  (fst (generate_sensor_reading rand fl st now s b c k) = Raise KeyError <-> ~ (1 <= b <= 5)) /\
  (~ (1 <= b <= 5) -> generate_sensor_reading rand fl st now s b c k = (Raise KeyError, k)) /\
  (1 <= b <= 5 -> is_ret (fst (generate_sensor_reading rand fl st now s b c k)) = scenarios_ok st b).
Proof.
  assert (Hout : ~ (1 <= b <= 5) ->
                 generate_sensor_reading rand fl st now s b c k = (Raise KeyError, k)).
  { intros Hb. unfold generate_sensor_reading.
    destruct (base_temps b) eqn:Hbt; [|reflexivity].
    exfalso. apply Hb, base_temps_Some. eauto. }
  assert (Hin : 1 <= b <= 5 ->
            is_ret (fst (generate_sensor_reading rand fl st now s b c k)) = scenarios_ok st b /\
            fst (generate_sensor_reading rand fl st now s b c k) <> Raise KeyError).
  { intros Hb. split.
    - destruct (generate_sensor_reading_cases rand fl st now s b c k Hb) as [Hok Hko].
      destruct (scenarios_ok st b).
      + destruct (Hok eq_refl) as (r & -> & _). reflexivity.
      + destruct (Hko eq_refl) as [e ->]. reflexivity.
    - destruct (proj2 (base_temps_Some b) Hb) as [bt Hbt].
      destruct (base_humidity_Some b Hb) as [bh Hbh].
      rewrite (generate_sensor_reading_eq rand fl st now s b c k bt bh Hbt Hbh).
      destruct (apply_scenarios rand fl st b (normal_values rand fl bt bh k))
        as [[[[[t h] co] p]|e] k'] eqn:E; cbn; [discriminate|].
      intros He. injection He as ->.
      exact (apply_scenarios_not_key rand fl st b _ KeyError k' E eq_refl). }
  split; [|split; [exact Hout|]].
  - split.
    + intros Hk Hb. destruct (Hin Hb) as [_ Hne]. contradiction.
    + intros Hb. rewrite (Hout Hb). reflexivity.
  - intros Hb. destruct (Hin Hb) as [H _]. exact H.
Qed.

(** [X2] For a building in 1..5, [generate_sensor_reading] consumes
    exactly four random draws, or eight when equipment_failure is active
    for that building and no scenario adjustment raises (an adjustment
    that raises does so before the four draws of equipment_failure). *)
Theorem generate_sensor_reading_draws (rand : nat -> Q) (fl : Q -> Q) (st : gmap string entry)
    (now s b c : Z) (k : nat) :
  1 <= b <= 5 ->
  snd (generate_sensor_reading rand fl st now s b c k)
  = ((if scenarios_ok st b && applies (get_entry st "equipment_failure") b then 8 else 4) + k)%nat.
Proof.
  intros Hb. destruct (generate_sensor_reading_cases rand fl st now s b c k Hb) as [Hok Hko].
  destruct (scenarios_ok st b) eqn:E.
  - destruct (Hok eq_refl) as (r & -> & _). reflexivity.
  - destruct (Hko eq_refl) as [e ->]. reflexivity.
Qed.

Lemma generate_sensor_reading_draws_witness :
  1 <= 1 <= 5 /\
  snd (generate_sensor_reading mid_draws id (triggered_state "equipment_failure" 1 (JInt 0))
         0 1 1 1 0) = 8%nat.
Proof.
  split; [lia|].
  rewrite (generate_sensor_reading_draws mid_draws id (triggered_state "equipment_failure" 1 (JInt 0))
             0 1 1 1 0 ltac:(lia)).
  vm_compute. reflexivity.
Defined.

Lemma generate_loop_counter (rand : nat -> Q) (fl : Q -> Q) st now (cfg : list (Z * Z * Z)) k :
  Forall (fun x => 1 <= cfg_building x <= 5 /\ scenarios_ok st (cfg_building x) = true) cfg ->
  snd (generate_loop rand fl st now cfg k)
  = (k + 4 * (length cfg + length (List.filter
       (fun x => applies (get_entry st "equipment_failure") (cfg_building x)) cfg)))%nat.
Proof.
  intros Hcfg. revert k. induction Hcfg as [|[[b c] s] rest [Hx Hok] Hrest IH]; intros k.
  - simpl. lia.
  - simpl in Hx, Hok |- *.
    destruct (generate_sensor_reading_cases rand fl st now s b c k Hx) as [Hr _].
    destruct (Hr Hok) as (r & -> & _).
    destruct (generate_loop rand fl st now rest _) as [[rs|e] k2] eqn:Hl;
      specialize (IH ((if applies (get_entry st "equipment_failure") b then 8 else 4) + k)%nat);
      rewrite Hl in IH; simpl in IH |- *;
      destruct (applies _ b); simpl; lia.
Qed.

Lemma filter_nil_Forall {A} (P : A -> Prop) (f : A -> bool) (l : list A) :
  Forall P l -> (forall x, P x -> f x = false) -> List.filter f l = [].
Proof.
  intros Hl Hf. induction Hl as [|x l Hx _ IH]; [reflexivity|].
  simpl. rewrite (Hf x Hx). exact IH.
Qed.

(** Number of configured sensors in building [b]. *)
Definition building_sensor_count (b : Z) : nat :=
  if decide (1 <= b <= 3) then 12%nat else if decide (4 <= b <= 5) then 8%nat else 0%nat.

Lemma filter_ext_eq {A} (f g : A -> bool) (l : list A) :
  (forall x, f x = g x) -> List.filter f l = List.filter g l.
Proof.
  intros Hfg. induction l as [|x l IH]; [reflexivity|].
  simpl. rewrite Hfg, IH. reflexivity.
Qed.

Lemma failing_sensors_count (e : entry) :
  length (List.filter (fun x => applies e (cfg_building x)) sensors_config)
  = if active e then match json_int_value (building_id e) with
                     | Some b => building_sensor_count b
                     | None => 0%nat end
    else 0%nat.
Proof.
  destruct (active e) eqn:Ha.
  2:{ rewrite (filter_nil_Forall (fun _ => True)); [reflexivity| |].
      - apply List.Forall_forall; auto.
      - intros x _. unfold applies. rewrite Ha. reflexivity. }
  destruct (json_int_value (building_id e)) as [b|] eqn:Hb.
  2:{ rewrite (filter_nil_Forall (fun _ => True)); [reflexivity| |].
      - apply List.Forall_forall; auto.
      - intros x _. unfold applies. rewrite Ha, Hb. reflexivity. }
  rewrite (filter_ext_eq _ (fun x => Z.eqb (cfg_building x) b)).
  2:{ intros x. unfold applies. rewrite Ha, Hb. simpl.
      destruct (Z.eqb_spec (cfg_building x) b) as [-> | Hne].
      - apply bool_decide_eq_true_2. reflexivity.
      - apply bool_decide_eq_false_2. congruence. }
  unfold building_sensor_count.
  destruct (decide (1 <= b <= 3)) as [H13|H13];
    [assert (b = 1 \/ b = 2 \/ b = 3) as [-> | [-> | ->]] by lia; vm_compute; reflexivity|].
  destruct (decide (4 <= b <= 5)) as [H45|H45];
    [assert (b = 4 \/ b = 5) as [-> | ->] by lia; vm_compute; reflexivity|].
  rewrite (filter_nil_Forall _ _ _ sensors_config_buildings); [reflexivity|].
  intros x Hx. apply Z.eqb_neq. lia.
Qed.

Lemma initial_scenarios_ok (b : Z) : scenarios_ok SCENARIO_STATE b = true.
Proof. unfold scenarios_ok, adjustment_ok. rewrite !initial_applies. reflexivity. Qed.

(** [X3] When no scenario adjustment raises for buildings 1..5, one
    [generate_all_sensors()] call consumes exactly 4 * (52 + n) random
    draws, where n is the number of configured sensors of the building
    equipment_failure is active for: 208 draws when it is active for no
    building 1..5, 256 for buildings 1..3 and 240 for buildings 4 and 5. *)
Theorem generate_all_sensors_draws (rand : nat -> Q) (fl : Q -> Q) (st : gmap string entry)
    (now : Z) (k : nat) :
  (forall b, 1 <= b <= 5 -> scenarios_ok st b = true) ->
  let e := get_entry st "equipment_failure" in
  snd (generate_all_sensors rand fl st now k)
  = (k + 4 * (52 + if active e then match json_int_value (building_id e) with
                                   | Some b => building_sensor_count b
                                   | None => 0 end
                   else 0))%nat.
Proof.
  intros Hok e. unfold generate_all_sensors.
  rewrite (generate_loop_counter rand fl st now sensors_config k).
  - fold e. rewrite failing_sensors_count. reflexivity.
  - pose proof sensors_config_buildings as Hc. rewrite List.Forall_forall in Hc.
    apply List.Forall_forall. intros x Hx. split; [exact (Hc x Hx)|]. apply Hok, Hc, Hx.
Qed.

Lemma generate_all_sensors_draws_witness :
  (forall b, 1 <= b <= 5 -> scenarios_ok SCENARIO_STATE b = true) /\
  snd (generate_all_sensors mid_draws id SCENARIO_STATE 0 0) = 208%nat.
Proof.
  split; [intros b _; apply initial_scenarios_ok|].
  rewrite (generate_all_sensors_draws mid_draws id SCENARIO_STATE 0 0
             (fun b _ => initial_scenarios_ok b)).
  rewrite initial_inactive. reflexivity.
Defined.

(** ** Stopping scenarios *)

Lemma generate_sensor_reading_inactive (rand : nat -> Q) (fl : Q -> Q) st now s b c k :
  (forall name, active (get_entry st name) = false) ->
  generate_sensor_reading rand fl st now s b c k
  = generate_sensor_reading rand fl SCENARIO_STATE now s b c k.
Proof.
  intros Hin.
  destruct (base_temps b) as [bt|] eqn:Hbt;
    [|unfold generate_sensor_reading; rewrite Hbt; reflexivity].
  destruct (base_humidity b) as [bh|] eqn:Hbh;
    [|unfold generate_sensor_reading; rewrite Hbt, Hbh; reflexivity].
  rewrite !(generate_sensor_reading_eq rand fl _ now s b c k bt bh Hbt Hbh).
  destruct (normal_values rand fl bt bh k) as [[[[t h] co] p] k4].
  rewrite (apply_scenarios_none rand fl st), (apply_scenarios_none rand fl SCENARIO_STATE);
    try apply initial_applies; try (unfold applies; rewrite Hin; reflexivity).
  reflexivity.
Qed.

Lemma generate_loop_ext (rand : nat -> Q) (fl : Q -> Q) st st' now cfg k :
  (forall s b c k0, generate_sensor_reading rand fl st now s b c k0
                    = generate_sensor_reading rand fl st' now s b c k0) ->
  generate_loop rand fl st now cfg k = generate_loop rand fl st' now cfg k.
Proof.
  intros Heq. revert k. induction cfg as [|[[b c] s] rest IH]; intros k; [reflexivity|].
  simpl. rewrite Heq. destruct (generate_sensor_reading rand fl st' now s b c k) as [[r|e] k1];
    [rewrite IH|]; reflexivity.
Qed.

Lemma deactivate_inactive (st : gmap string entry) (name : string) :
  active (get_entry (Scenarios.deactivate <$> st) name) = false.
Proof.
  unfold get_entry. rewrite lookup_fmap. destruct (st !! name); reflexivity.
Qed.

(** [X4] [stop_scenario] with type "all" succeeds from any scenario
    state, and afterwards [generate_all_sensors()] produces, for the same
    random draws, exactly what it produces from the initial state: no
    scenario effect survives. *)
Theorem stop_all_resets_generator (rand : nat -> Q) (fl : Q -> Q) (st : gmap string entry) (rq : request)
    (now : Z) (k : nat) :
  req_type rq = Some "all"%string ->
  fst (Scenarios.stop_scenario st (Some rq)) = true /\
  generate_all_sensors rand fl (snd (Scenarios.stop_scenario st (Some rq))) now k
  = generate_all_sensors rand fl SCENARIO_STATE now k.
Proof.
  intros Hall. unfold Scenarios.stop_scenario. rewrite Hall. cbn [fst snd].
  split; [reflexivity|].
  unfold generate_all_sensors. apply generate_loop_ext.
  intros. apply generate_sensor_reading_inactive. apply deactivate_inactive.
Qed.

Lemma stop_all_resets_generator_witness :
  req_type (mk_request (Some "all"%string) None None None) = Some "all"%string /\
  fst (Scenarios.stop_scenario (triggered_state "temperature_spike" 1 (JInt 10))
         (Some (mk_request (Some "all"%string) None None None))) = true /\
  generate_all_sensors mid_draws id
    (snd (Scenarios.stop_scenario (triggered_state "temperature_spike" 1 (JInt 10))
           (Some (mk_request (Some "all"%string) None None None)))) 0 0
  = generate_all_sensors mid_draws id SCENARIO_STATE 0 0.
Proof.
  split; [reflexivity|].
  apply (stop_all_resets_generator mid_draws id (triggered_state "temperature_spike" 1 (JInt 10))
           (mk_request (Some "all"%string) None None None) 0 0).
  reflexivity.
Defined.

Lemma stop_scenario_eq (st : gmap string entry) (rq : request) (ty : string) :
  req_type rq = Some ty ->
  Scenarios.stop_scenario st (Some rq) =
  if String.eqb ty "all" then (true, Scenarios.deactivate <$> st)
  else match st !! ty with
       | Some e => (true, <[ ty := Scenarios.deactivate e ]> st)
       | None => (false, st)
       end.
Proof.
  intros Hty. unfold Scenarios.stop_scenario. rewrite Hty.
  repeat match goal with
  | |- context [match ?a with _ => _ end] => is_var a; destruct a
  end; reflexivity.
Qed.

Lemma deactivate_idem (e : entry) : Scenarios.deactivate (Scenarios.deactivate e) = Scenarios.deactivate e.
Proof. reflexivity. Qed.

(** [X5] Repeating a [stop_scenario] request changes nothing: the second
    call returns the same response flag and the same scenario state as
    the first, for every request and every state. *)
Theorem stop_scenario_idempotent (st : gmap string entry) (data : option request) :
  Scenarios.stop_scenario (snd (Scenarios.stop_scenario st data)) data
  = Scenarios.stop_scenario st data.
Proof.
  destruct data as [rq|]; [|reflexivity].
  destruct (req_type rq) as [ty|] eqn:Hty;
    [|unfold Scenarios.stop_scenario; rewrite Hty; reflexivity].
  rewrite !(stop_scenario_eq _ rq ty Hty).
  destruct (String.eqb ty "all") eqn:Hall; cbn [snd].
  - f_equal. apply map_eq. intros i. rewrite !lookup_fmap.
    destruct (st !! i); reflexivity.
  - destruct (st !! ty) as [e|] eqn:He; cbn [snd].
    + rewrite lookup_insert_eq, insert_insert_eq, deactivate_idem. reflexivity.
    + rewrite He. reflexivity.
Qed.

(** ** Triggering scenarios *)

Lemma trigger_failure_unchanged (st : gmap string entry) data db now :
  fst (Scenarios.trigger_scenario st data db now) = false ->
  snd (Scenarios.trigger_scenario st data db now) = st.
Proof.
  unfold Scenarios.trigger_scenario.
  destruct data as [rq|]; [|reflexivity].
  destruct (req_type rq) as [ty|]; [|reflexivity].
  destruct (st !! ty); [|reflexivity].
  destruct (db _); [discriminate|reflexivity].
Qed.

(** [X6] In every state reached through the endpoints, [trigger_scenario]
    reports success exactly when the body is present, its type is one of
    the four scenario names and the sensor query for the requested
    building (default 1) succeeds; a failed trigger leaves the scenario
    state unchanged. *)
Theorem trigger_scenario_outcome (ops : list Scenarios.op) (data : option request)
    (db : json -> option (list Z)) (now : Z) :
  (fst (Scenarios.trigger_scenario (Scenarios.run ops) data db now) = true <->
   exists rq ty aff, data = Some rq /\ req_type rq = Some ty /\
     ty ∈ Scenarios.scenario_names /\ db (Scenarios.building_of rq) = Some aff) /\
  (fst (Scenarios.trigger_scenario (Scenarios.run ops) data db now) = false ->
   snd (Scenarios.trigger_scenario (Scenarios.run ops) data db now) = Scenarios.run ops).
Proof.
  split; [|apply trigger_failure_unchanged].
  split.
  - unfold Scenarios.trigger_scenario.
    destruct data as [rq|]; [|discriminate].
    destruct (req_type rq) as [ty|] eqn:Hty; [|discriminate].
    destruct (Scenarios.run ops !! ty) eqn:He; [|discriminate].
    destruct (db _) as [aff|] eqn:Hdb; [|discriminate].
    intros _. exists rq, ty, aff. split; [reflexivity|]. split; [exact Hty|].
    split; [|exact Hdb].
    rewrite <- (run_dom ops). apply elem_of_dom. eauto.
  - intros (rq & ty & aff & -> & Hty & Hin & Hdb).
    destruct (run_lookup_Some ops ty Hin) as [e0 He0].
    rewrite (trigger_success _ rq ty e0 db now aff Hty He0 Hdb). reflexivity.
Qed.

(** [X7] Stopping a scenario right after triggering it leaves its entry
    inactive with no building, but keeps the intensity, start time,
    duration and affected sensors of the trigger; the entry that the
    trigger replaced (for equipment_failure, its [failed_sensors] list)
    is not restored. *)
Theorem trigger_then_stop (st : gmap string entry) (rq : request) (ty : string) (e0 : entry)
    (aff : list Z) (db : json -> option (list Z)) (now : Z) :
  req_type rq = Some ty -> ty <> "all"%string -> st !! ty = Some e0 ->
  db (Scenarios.building_of rq) = Some aff ->
  Scenarios.stop_scenario (snd (Scenarios.trigger_scenario st (Some rq) db now)) (Some rq)
  = (true, <[ ty := mk_entry false JNull (Some (Scenarios.intensity_of ty rq))
                      (Some now) (Some (Scenarios.duration_of rq)) (Some aff) None ]> st).
Proof.
  intros Hty Hall He0 Hdb.
  rewrite (trigger_success st rq ty e0 db now aff Hty He0 Hdb). cbn [snd].
  rewrite (stop_scenario_eq _ rq ty Hty).
  destruct (String.eqb_spec ty "all") as [->|_]; [congruence|].
  rewrite lookup_insert_eq, insert_insert_eq. reflexivity.
Qed.

Lemma trigger_then_stop_witness :
  Scenarios.stop_scenario
    (snd (Scenarios.trigger_scenario SCENARIO_STATE
            (Some (mk_request (Some "equipment_failure"%string) (Some (JInt 3)) None None))
            (fun _ => Some [25; 26]) 7))
    (Some (mk_request (Some "equipment_failure"%string) (Some (JInt 3)) None None))
  = (true, <[ "equipment_failure" := mk_entry false JNull (Some (JInt 0)) (Some 7)
                                      (Some (JInt 300)) (Some [25; 26]) None ]> SCENARIO_STATE).
Proof.
  apply (trigger_then_stop SCENARIO_STATE
           (mk_request (Some "equipment_failure"%string) (Some (JInt 3)) None None)
           "equipment_failure" (mk_entry false JNull None None None None (Some []))
           [25; 26] (fun _ => Some [25; 26]) 7); try reflexivity; try discriminate.
Defined.

(** ** get_buildings_stats (app.py) *)

(** The keys of [SCENARIO_STATE] in iteration order: the dict literal's
    order, which assignments to existing keys keep (and [run_dom] shows
    that the endpoints never add or remove a key). *)
Definition scenario_order : list string :=
  ["temperature_spike"; "humidity_drop"; "co2_alarm"; "equipment_failure"].

(** Lines 722-725: the scenario types listed for [building_id]. *)
Definition active_scenarios (st : gmap string entry) (b : Z) : list string :=
  List.filter (fun ty => applies (get_entry st ty) b) scenario_order.

Inductive status := Critical | Warning | Normal.

(** [float(row[2]) if row[2] else 0]: a NULL or zero average is 0. *)
Definition avg_temp_of (v : option Q) : Q :=
  match v with
  | Some q => if Qeq_bool q 0 then 0 else q
  | None => 0
  end.

(** Lines 714-719. *)
Definition status_of (avg_temp : Q) : status :=
  if negb (Qle_bool 18 avg_temp) || negb (Qle_bool avg_temp 27) then Critical
  else if negb (Qle_bool 20 avg_temp) || negb (Qle_bool avg_temp 24) then Warning
  else Normal.

(** The non-NULL values of a column. *)
Fixpoint non_null (xs : list (option Q)) : list Q :=
  match xs with
  | [] => []
  | Some x :: rest => x :: non_null rest
  | None :: rest => non_null rest
  end.

(** SQL [AVG(temperature)] over a group: NULLs are skipped and a group
    without a value gives NULL. *)
Definition sql_avg (xs : list (option Q)) : option Q :=
  match non_null xs with
  | [] => None
  | ys => Some (fold_right Qplus 0 ys / inject_Z (Z.of_nat (length ys)))%Q
  end.

Lemma active_scenarios_In (st : gmap string entry) (b : Z) (x : string) :
  In x (active_scenarios st b) <-> In x scenario_order /\ applies (get_entry st x) b = true.
Proof. unfold active_scenarios. apply filter_In. Qed.

Lemma scenario_names_order (ty : string) : ty ∈ Scenarios.scenario_names -> In ty scenario_order.
Proof.
  unfold Scenarios.scenario_names. intros H.
  assert (ty = "temperature_spike"%string \/ ty = "humidity_drop"%string \/
          ty = "co2_alarm"%string \/ ty = "equipment_failure"%string) as Hc by set_solver.
  destruct Hc as [-> | [-> | [-> | ->]]]; simpl; tauto.
Qed.

(** [X8] After a successful [trigger_scenario] of type [ty] for building
    [b] (default 1), in any state reached through the endpoints,
    [get_buildings_stats] lists [ty] among the active scenarios of [b]
    and of no other building, and lists every other type exactly as
    before. *)
Theorem active_scenarios_after_trigger (ops : list Scenarios.op) (rq : request) (ty : string)
    (db : json -> option (list Z)) (now : Z) (st' : gmap string entry) :
  req_type rq = Some ty ->
  Scenarios.trigger_scenario (Scenarios.run ops) (Some rq) db now = (true, st') ->
  forall b x, In x (active_scenarios st' b) <->
    (x = ty /\ json_int_value (Scenarios.building_of rq) = Some b) \/
    (x <> ty /\ In x (active_scenarios (Scenarios.run ops) b)).
Proof.
  intros Hty Htr b x.
  destruct (Scenarios.run ops !! ty) as [e0|] eqn:He0;
    [|unfold Scenarios.trigger_scenario in Htr; rewrite Hty, He0 in Htr; discriminate].
  destruct (db (Scenarios.building_of rq)) as [aff|] eqn:Hdb;
    [|unfold Scenarios.trigger_scenario in Htr; rewrite Hty, He0, Hdb in Htr; discriminate].
  rewrite (trigger_success _ rq ty e0 db now aff Hty He0 Hdb) in Htr.
  injection Htr as <-.
  assert (Hin : In ty scenario_order).
  { apply scenario_names_order. rewrite <- (run_dom ops). apply elem_of_dom. eauto. }
  rewrite !active_scenarios_In, get_entry_insert.
  case_decide as Hx.
  - subst x. unfold applies; cbn [active building_id andb].
    split.
    + intros [_ H]. left. split; [reflexivity|].
      apply bool_decide_eq_true_1 in H. congruence.
    + intros [[_ ->] | [Hne _]]; [|congruence].
      split; [exact Hin|]. apply bool_decide_eq_true_2. reflexivity.
  - split.
    + intros H. right. split; [congruence|exact H].
    + intros [[-> _] | [_ H]]; [congruence|exact H].
Qed.

Lemma active_scenarios_after_trigger_witness :
  req_type (mk_request (Some "co2_alarm"%string) (Some (JInt 4)) None None) = Some "co2_alarm"%string /\
  Scenarios.trigger_scenario (Scenarios.run []) (Some (mk_request (Some "co2_alarm"%string) (Some (JInt 4)) None None))
    (fun _ => Some []) 0
  = (true, triggered_state "co2_alarm" 4 (JInt 400)) /\
  In "co2_alarm"%string (active_scenarios (triggered_state "co2_alarm" 4 (JInt 400)) 4).
Proof.
  assert (Htr : Scenarios.trigger_scenario (Scenarios.run [])
                  (Some (mk_request (Some "co2_alarm"%string) (Some (JInt 4)) None None)) (fun _ => Some []) 0
                = (true, triggered_state "co2_alarm" 4 (JInt 400))) by (vm_compute; reflexivity).
  split; [reflexivity|]. split; [exact Htr|].
  apply (active_scenarios_after_trigger [] (mk_request (Some "co2_alarm"%string) (Some (JInt 4)) None None)
           "co2_alarm" (fun _ => Some []) 0 _ eq_refl Htr 4 "co2_alarm").
  left. split; reflexivity.
Defined.

(** [X9] After a [stop_scenario] request of type [ty], from any state,
    [get_buildings_stats] lists for every building no scenario when [ty]
    is "all", and otherwise the types it listed before except [ty]. *)
Theorem active_scenarios_after_stop (st : gmap string entry) (rq : request) (ty : string)
    (b : Z) (x : string) :
  req_type rq = Some ty ->
  In x (active_scenarios (snd (Scenarios.stop_scenario st (Some rq))) b) <->
  ty <> "all"%string /\ x <> ty /\ In x (active_scenarios st b).
Proof.
  intros Hty. rewrite (stop_scenario_eq st rq ty Hty), !active_scenarios_In.
  destruct (String.eqb_spec ty "all") as [-> | Hall]; cbn [snd].
  - unfold applies. rewrite deactivate_inactive. split; [intros [_ H]; discriminate | tauto].
  - destruct (st !! ty) as [e|] eqn:He; cbn [snd].
    + rewrite get_entry_insert. case_decide as Hx.
      * subst x. unfold applies. cbn [Scenarios.deactivate active andb].
        split; [intros [_ H]; discriminate | tauto].
      * split; [intros H; split; [exact Hall|split; [congruence|exact H]] | tauto].
    + split; [|tauto]. intros [Hin Ha]. split; [exact Hall|]. split; [|tauto].
      intros ->. unfold get_entry, applies in Ha. rewrite He in Ha. discriminate.
Qed.

Lemma active_scenarios_after_stop_witness :
  req_type (mk_request (Some "all"%string) None None None) = Some "all"%string /\
  active_scenarios (snd (Scenarios.stop_scenario (triggered_state "co2_alarm" 4 (JInt 400))
                           (Some (mk_request (Some "all"%string) None None None)))) 4 = [].
Proof.
  split; [reflexivity|].
  destruct (active_scenarios _ 4) as [|x l] eqn:E; [reflexivity|].
  exfalso.
  assert (Hx : In x (active_scenarios (snd (Scenarios.stop_scenario (triggered_state "co2_alarm" 4 (JInt 400))
                           (Some (mk_request (Some "all"%string) None None None)))) 4))
    by (rewrite E; left; reflexivity).
  apply (active_scenarios_after_stop (triggered_state "co2_alarm" 4 (JInt 400))
           (mk_request (Some "all"%string) None None None) "all" 4 x eq_refl) in Hx.
  destruct Hx as [Hne _]. apply Hne. reflexivity.
Defined.

Lemma Qle_bool_false (x y : Q) : Qle_bool x y = false <-> (y < x)%Q.
Proof.
  split.
  - intros H. apply Qnot_le_lt. intros Hle. apply Qle_bool_iff in Hle. congruence.
  - intros H. apply Bool.not_true_iff_false. intros Hle. apply Qle_bool_iff in Hle. lra.
Qed.

(** ** Building status of generated readings *)

Lemma non_null_some (xs : list Q) : non_null (map Some xs) = xs.
Proof. induction xs as [|x xs IH]; simpl; [reflexivity|]. rewrite IH. reflexivity. Qed.

Lemma sum_bounds (lo hi : Q) (xs : list Q) :
  Forall (fun x => lo <= x <= hi)%Q xs ->
  (inject_Z (Z.of_nat (length xs)) * lo <= fold_right Qplus 0 xs <=
   inject_Z (Z.of_nat (length xs)) * hi)%Q.
Proof.
  induction 1 as [|x xs Hx _ IH]; cbn [length fold_right];
    [change (inject_Z (Z.of_nat 0)) with 0%Q; split; lra|].
  rewrite Nat2Z.inj_succ, <- Z.add_1_r, inject_Z_plus. change (inject_Z 1) with 1%Q.
  split; nra.
Qed.

Lemma avg_bounds (lo hi : Q) (xs : list Q) :
  xs <> [] -> Forall (fun x => lo <= x <= hi)%Q xs ->
  (lo <= fold_right Qplus 0 xs / inject_Z (Z.of_nat (length xs)) <= hi)%Q.
Proof.
  intros Hne Hb. destruct (sum_bounds lo hi xs Hb) as [Hlo Hhi].
  assert (Hn : (0 < inject_Z (Z.of_nat (length xs)))%Q).
  { destruct xs; [congruence|]. cbn [length].
    change 0%Q with (inject_Z 0). rewrite <- Zlt_Qlt. lia. }
  split.
  - apply Qle_shift_div_l; [exact Hn|]. rewrite Qmult_comm. exact Hlo.
  - apply Qle_shift_div_r; [exact Hn|]. rewrite Qmult_comm. exact Hhi.
Qed.

Lemma temperature_without_scenario (rand : nat -> Q) (fl : Q -> Q) st now s b c k r k' :
  float_rounding fl -> (forall j, 0 <= rand j <= 1)%Q -> 1 <= b <= 4 ->
  (forall name, applies (get_entry st name) b = false) ->
  generate_sensor_reading rand fl st now s b c k = (Ret r, k') ->
  (18 <= r_temperature r <= 27)%Q.
Proof.
  intros Hfl Hr Hb Happ Hg.
  assert (Hz : exists zt zh, base_temps b = Some (inject_Z zt) /\
                 base_humidity b = Some (inject_Z zh) /\ 20 <= zt <= 25 /\ 0 <= zh <= 100).
  { assert (b = 1 \/ b = 2 \/ b = 3 \/ b = 4) as [-> | [-> | [-> | ->]]] by lia;
      [exists 20, 47 | exists 21, 49 | exists 23, 51 | exists 25, 53];
      (split; [reflexivity | split; [reflexivity | lia]]). }
  destruct Hz as (zt & zh & Hbt & Hbh & Hzt & Hzh).
  rewrite (generate_sensor_reading_eq rand fl st now s b c k _ _ Hbt Hbh) in Hg.
  destruct (normal_values rand fl (inject_Z zt) (inject_Z zh) k) as [[[[t h] co] p] k4] eqn:En.
  destruct (normal_values_bounds rand fl zt zh k t h co p k4 Hfl Hr ltac:(lia) ltac:(lia) En)
    as ([U1 U2] & _).
  rewrite apply_scenarios_none in Hg by apply Happ.
  cbn [round_values] in Hg. injection Hg as <- _. cbn [r_temperature].
  change 18%Q with (inject_Z 18). change 27%Q with (inject_Z 27).
  apply (fl_round2_bounds fl Hfl); try lia.
  split; [eapply Qle_trans; [|exact U1] | eapply Qle_trans; [exact U2|]];
    rewrite <- Zle_Qle; lia.
Qed.

(** [X11] With no scenario active for a building among 1..4 and draws in
    [0, 1], [get_buildings_stats] never reports that building "critical"
    when its latest readings all come from [generate_sensor_reading]:
    their average temperature stays in [18, 27]. *)
Theorem no_scenario_not_critical (rand : nat -> Q) (fl : Q -> Q) (b : Z) (rs : list reading) :
  float_rounding fl -> (forall j, 0 <= rand j <= 1)%Q -> 1 <= b <= 4 -> rs <> [] ->
  Forall (fun r => exists st now s c k k',
            (forall name, applies (get_entry st name) b = false) /\
            generate_sensor_reading rand fl st now s b c k = (Ret r, k')) rs ->
  exists avg, sql_avg (map (fun r => Some (r_temperature r)) rs) = Some avg /\
    (18 <= avg <= 27)%Q /\
    status_of (avg_temp_of (Some avg)) <> Critical.
Proof.
  intros Hfl Hr Hb Hne Hrs.
  assert (Hmap : map (fun r => Some (r_temperature r)) rs = map Some (map r_temperature rs))
    by (rewrite map_map; reflexivity).
  unfold sql_avg. rewrite Hmap, non_null_some.
  destruct (map r_temperature rs) as [|t ts] eqn:Ets;
    [destruct rs; [congruence|discriminate]|].
  eexists. split; [reflexivity|].
  assert (Hbounds : (18 <= fold_right Qplus 0 (t :: ts) / inject_Z (Z.of_nat (length (t :: ts))) <= 27)%Q).
  { apply avg_bounds; [discriminate|]. rewrite <- Ets.
    apply Forall_map. eapply Forall_impl; [exact Hrs|].
    intros r (st & now & s & c & k & k' & Happ & Hg).
    exact (temperature_without_scenario rand fl st now s b c k r k' Hfl Hr Hb Happ Hg). }
  split; [exact Hbounds|].
  set (avg := (fold_right Qplus 0 (t :: ts) / inject_Z (Z.of_nat (length (t :: ts))))%Q) in *.
  unfold avg_temp_of.
  destruct (Qeq_bool avg 0) eqn:H0;
    [apply Qeq_bool_iff in H0; rewrite H0 in Hbounds; lra|].
  unfold status_of.
  destruct (Qle_bool 18 avg) eqn:H1; [|apply Qle_bool_false in H1; lra].
  destruct (Qle_bool avg 27) eqn:H2; [|apply Qle_bool_false in H2; lra].
  cbn. destruct (_ || _); discriminate.
Qed.

Lemma no_scenario_not_critical_witness :
  exists r k', generate_sensor_reading mid_draws id SCENARIO_STATE 0 1 1 1 0 = (Ret r, k') /\
  exists avg, sql_avg [Some (r_temperature r)] = Some avg /\ (18 <= avg <= 27)%Q /\
    status_of (avg_temp_of (Some avg)) <> Critical.
Proof.
  destruct (generate_sensor_reading mid_draws id SCENARIO_STATE 0 1 1 1 0) as [ro k'] eqn:Hg.
  assert (Hro : exists r, ro = Ret r) by (vm_compute in Hg; injection Hg as <- _; eauto).
  destruct Hro as [r ->]. exists r, k'. split; [reflexivity|].
  apply (no_scenario_not_critical mid_draws id 1 [r]); [apply float_rounding_id |
     intros j; unfold mid_draws; split; lra | lia | discriminate |].
  constructor; [|constructor].
  exists SCENARIO_STATE, 0, 1, 1, 0%nat, k'. split; [intros; apply initial_applies | exact Hg].
Defined.

(** ** Formatting of stored readings (get_latest_readings, broadcast_data) *)

(** A [sensor_readings] row: (sensor_id, timestamp, temperature,
    humidity, co2, pressure, building_id, controller_id); [None] is NULL. *)
Definition sensor_row : Type := Z * Z * option Q * option Q * option Q * option Q * Z * Z.

(** The row [insert_readings] stores for a reading (its values already
    have two decimals, which the NUMERIC columns keep). *)
Definition row_of_reading (r : reading) : sensor_row :=
  (r_sensor_id r, r_timestamp r, Some (r_temperature r), Some (r_humidity r),
   Some (r_co2 r), Some (r_pressure r), r_building_id r, r_controller_id r).

(** [float(x) if x else None] on a NUMERIC value: NULL and zero are falsy. *)
Definition float_or_none (v : option Q) : option Q :=
  match v with
  | Some q => if Qeq_bool q 0 then None else Some q
  | None => None
  end.

Record published := mk_published {
  p_sensor_id : Z;
  p_timestamp : Z;
  p_temperature : option Q;
  p_humidity : option Q;
  p_co2 : option Q;
  p_pressure : option Q;
  p_building_id : Z;
  p_controller_id : Z
}.

(** The dict built for each row (lines 125-134 and 454-463). *)
Definition format_row (row : sensor_row) : published :=
  let '(s, ts, t, h, c, p, b, ctl) := row in
  mk_published s ts (float_or_none t) (float_or_none h) (float_or_none c) (float_or_none p) b ctl.

Lemma round2_num_small (x : Q) : (0 <= x * inject_Z 100 <= 1 # 2)%Q -> round2_num x = 0.
Proof.
  intros [H0 H1]. unfold round2_num.
  assert (Hf : Qfloor (x * inject_Z 100) = 0).
  { apply Qfloor_unique; change (inject_Z 0) with 0%Q; change (inject_Z (0 + 1)) with 1%Q; lra. }
  rewrite Hf. change (inject_Z 0) with 0%Q.
  destruct (Qeq_bool _ _); [reflexivity|].
  destruct (Qle_bool (x * inject_Z 100 - 0) (1 # 2)) eqn:Hle; [reflexivity|].
  apply Qle_bool_false in Hle. lra.
Qed.

(** The temperature_spike adjustment of a building for which no
    adjustment raises returns a value. *)
Lemma spike_adjustment_ret (fl : Q -> Q) (st : gmap string entry) (b : Z) (t : Q) :
  scenarios_ok st b = true ->
  exists t1, (if applies (get_entry st "temperature_spike") b
              then py_add fl t (default (JInt 10) (intensity (get_entry st "temperature_spike")))
              else Ret t) = Ret t1.
Proof.
  intros Hok. unfold scenarios_ok, adjustment_ok in Hok. unfold py_add.
  destruct (applies (get_entry st "temperature_spike") b); [|eauto].
  destruct (float_operand (default (JInt 10) (intensity (get_entry st "temperature_spike"))));
    [eauto|].
  cbn in Hok. discriminate.
Qed.

(** [X12] When equipment_failure is active for the building and the draw
    for the CO2 value (the seventh draw of the reading, a binary64
    number) is at most 1/400000, the reading's CO2 rounds to 0.00, and
    the latest-readings and broadcast payloads report it as null, as if
    it were missing. *)
Theorem failure_co2_published_null (rand : nat -> Q) (fl : Q -> Q) (st : gmap string entry)
    (now s b c : Z) (k : nat) (r : reading) (k' : nat) :
  float_rounding fl ->
  applies (get_entry st "equipment_failure") b = true ->
  (0 <= rand (6 + k)%nat <= 1 # 400000)%Q -> is_double (rand (6 + k)%nat) ->
  generate_sensor_reading rand fl st now s b c k = (Ret r, k') ->
  (r_co2 r == 0)%Q /\ p_co2 (format_row (row_of_reading r)) = None.
Proof.
  intros Hfl Hfail Hd Hdbl Hg.
  destruct (base_temps b) as [bt|] eqn:Hbt;
    [|unfold generate_sensor_reading in Hg; rewrite Hbt in Hg; discriminate].
  destruct (base_humidity b) as [bh|] eqn:Hbh;
    [|unfold generate_sensor_reading in Hg; rewrite Hbt, Hbh in Hg; discriminate].
  rewrite (generate_sensor_reading_eq rand fl st now s b c k bt bh Hbt Hbh) in Hg.
  destruct (normal_values_shape rand fl bt bh k) as (t0 & h0 & c0 & p0 & En).
  rewrite En in Hg.
  destruct (scenarios_ok st b) eqn:Hok.
  2:{ destruct (apply_scenarios_result rand fl st b (fl t0) (fl h0) (fl c0) (fl p0)
                  (S (S (S (S k))))) as [Hr _].
      destruct (Hr Hok) as [e He]. rewrite He in Hg. discriminate. }
  destruct (spike_adjustment_ret fl st b (fl t0) Hok) as [t1 Ht1].
  rewrite (apply_scenarios_failure rand fl st b _ _ _ _ _ t1 Hfail Hok Ht1) in Hg.
  cbn [round_values] in Hg. injection Hg as <- _. cbn [r_co2].
  unfold uniform. cbn [fst].
  set (x := (((2000 # 1) - (0 # 1)) * rand (S (S (S (S (S (S k)))))))%Q).
  assert (Hx : (0 <= x <= (2000 # 1) * co2_draw_max)%Q).
  { pose proof (double_le_co2_draw_max _ Hdbl Hd) as Hm. change (6 + k)%nat with (S (S (S (S (S (S k)))))) in Hd, Hm.
    unfold x. destruct Hd as [Hd0 _]. split; lra. }
  destruct (fl_co2_small fl Hfl x Hx) as [Hf0 Hf1].
  assert (Hs : (fl ((0 # 1) + fl x) == fl x)%Q).
  { rewrite (fl_compat fl Hfl ((0 # 1) + fl x) (fl x)) by ring. apply (fl_idem fl Hfl). }
  assert (Hr0 : round2_num (fl ((0 # 1) + fl x)%Q) = 0).
  { rewrite (round2_num_compat _ _ Hs). apply round2_num_small.
    change (inject_Z 100) with (100 # 1). split; lra. }
  assert (Hv : (fl (round2 (fl ((0 # 1) + fl x)%Q)) == 0)%Q).
  { unfold round2. rewrite Hr0.
    assert (E : (fl (0 # 100) == 0 # 100)%Q)
      by (apply (fl_Z fl Hfl 0); [lia | unfold Qeq; reflexivity]).
    rewrite E. unfold Qeq; reflexivity. }
  split; [exact Hv|].
  unfold row_of_reading, format_row, float_or_none. cbn [r_co2 p_co2].
  apply Qeq_bool_iff in Hv. rewrite Hv. reflexivity.
Qed.

Lemma failure_co2_published_null_witness :
  applies (get_entry (triggered_state "equipment_failure" 2 (JInt 0)) "equipment_failure") 2 = true /\
  exists r k', generate_sensor_reading (fun _ => 0%Q) id
                 (triggered_state "equipment_failure" 2 (JInt 0)) 0 13 2 4 0 = (Ret r, k') /\
  (r_co2 r == 0)%Q /\ p_co2 (format_row (row_of_reading r)) = None.
Proof.
  assert (Happ : applies (get_entry (triggered_state "equipment_failure" 2 (JInt 0))
                            "equipment_failure") 2 = true)
    by (vm_compute; reflexivity).
  split; [exact Happ|].
  destruct (generate_sensor_reading (fun _ => 0%Q) id
              (triggered_state "equipment_failure" 2 (JInt 0)) 0 13 2 4 0) as [ro k'] eqn:Hg.
  assert (Hro : exists r, ro = Ret r) by (vm_compute in Hg; injection Hg as <- _; eauto).
  destruct Hro as [r ->]. exists r, k'. split; [reflexivity|].
  apply (failure_co2_published_null (fun _ => 0%Q) id (triggered_state "equipment_failure" 2 (JInt 0))
           0 13 2 4 0 r k' float_rounding_id Happ); [split; lra | | exact Hg].
  exists 0, 0. split; [lia | split; [lia | reflexivity]].
Defined.

(** ** ModbusIntegrationWriter.connect and write_sensor_data *)

(** [connect()]: [rows] is the result of the [data_atributes] query
    (id, name, sys_id), [None] when connecting or querying raises. Each
    row is stored in [self.sensor_mappings]; with no row the demo-sensor
    fallback only prints, and [True] is still returned. *)
Definition connect (w : Writer.writer) (rows : option (list (Z * string * Z)))
    : bool * Writer.writer :=
  match rows with
  | None => (false, w)
  | Some rs =>
      (true, Writer.mk_writer
               (fold_left (fun m '(id, name, sys_id) => <[ id := (name, sys_id) ]> m) rs
                  (Writer.sensor_mappings w))
               (Writer.data_data w))
  end.

Definition row_id (x : Z * string * Z) : Z := let '(id, _, _) := x in id.

Lemma connect_lookup (rs : list (Z * string * Z)) (m : gmap Z (string * Z)) (id : Z) :
  is_Some (fold_left (fun m '(id, name, sys_id) => <[ id := (name, sys_id) ]> m) rs m !! id)
  <-> In id (map row_id rs) \/ is_Some (m !! id).
Proof.
  revert m. induction rs as [|[[i n] s] rs IH]; intros m; simpl.
  - tauto.
  - rewrite IH. rewrite lookup_insert.
    case_decide as Hi; [subst; split; [tauto|]; intros _; right; eauto|].
    split; [intros [H|H]; tauto|]. intros [[H|H]|H]; [congruence|tauto|tauto].
Qed.

(** [X14] After a successful [connect()] of a fresh writer, an insert
    that the database accepts makes [write_sensor_data] succeed exactly
    for the ids the [data_atributes] query returned; in particular, when
    the query returns no sensor, [connect()] still reports success and
    every later [write_sensor_data] returns [False]. *)
Theorem connect_then_write (rows : list (Z * string * Z)) (sensor_id : Z) (value : Q)
    (timestamp : option Z) (now n : Z) :
  fst (connect (Writer.mk_writer ∅ []) (Some rows)) = true /\
  (fst (Writer.write_sensor_data (snd (connect (Writer.mk_writer ∅ []) (Some rows)))
          sensor_id value timestamp now (Writer.Inserted n)) = true
   <-> In sensor_id (map row_id rows)).
Proof.
  split; [reflexivity|]. cbn [connect snd fst].
  unfold Writer.write_sensor_data. cbn [Writer.sensor_mappings].
  pose proof (connect_lookup rows ∅ sensor_id) as H.
  destruct (fold_left _ rows ∅ !! sensor_id) as [x|] eqn:Hx.
  - split; [intros _|reflexivity].
    destruct (proj1 H ltac:(eauto)) as [Hin|[y Hy]]; [exact Hin|]. rewrite lookup_empty in Hy. discriminate.
  - split; [discriminate|]. intros Hin. destruct (proj2 H (or_introl Hin)) as [y Hy]. discriminate.
Qed.

(** ** ModbusIntegrationWriter.start_emulation *)

(** [pat in s] on strings (UTF-8 bytes, where a substring of code points
    is a substring of bytes and conversely). *)
Fixpoint contains (pat s : string) : bool :=
  String.prefix pat s ||
  match s with
  | EmptyString => false
  | String _ rest => contains pat rest
  end.

Section Emulation.
Variable rand : nat -> Q.
Variable fl : Q -> Q.
(** [str.lower()] *)
Variable lower : string -> string.
(** The clock and the database outcome of the [i]-th write of a round. *)
Variable clock : nat -> Z.
Variable outs : nat -> Writer.db_outcome.

(** Lines 164-173: the value chosen from the lowercased sensor name. *)
Definition emulated_value (sensor_name : string) (k : nat) : Q * nat :=
  let '(u, k') :=
    if contains "temp" sensor_name || contains "температура" sensor_name
    then uniform rand fl (18 # 1) (26 # 1) k
    else if contains "humid" sensor_name || contains "влажность" sensor_name
    then uniform rand fl (35 # 1) (65 # 1) k
    else if contains "co2" sensor_name
    then uniform rand fl (400 # 1) (800 # 1) k
    else if contains "press" sensor_name || contains "давление" sensor_name
    then uniform rand fl (1010 # 1) (1020 # 1) k
    else uniform rand fl 0 (100 # 1) k in
  (fl (round2 u), k').

(** One pass of the [for sensor_id in self.sensor_mappings.keys()] loop,
    [keys] being the dict's keys in insertion order and [i] the index of
    the write. A missing key raises [KeyError], which ends the pass (the
    handler catches it); the boolean tells whether the pass completed. *)
Fixpoint emulation_round (w : Writer.writer) (keys : list Z) (i k : nat)
    : bool * Writer.writer * nat :=
  match keys with
  | [] => (true, w, k)
  | sensor_id :: rest =>
      match Writer.sensor_mappings w !! sensor_id with
      | None => (false, w, k)
      | Some (name, _) =>
          let '(value, k1) := emulated_value (lower name) k in
          let w1 := snd (Writer.write_sensor_data w sensor_id value None (clock i) (outs i)) in
          emulation_round w1 rest (S i) k1
      end
  end.

End Emulation.

Lemma emulated_value_counter (rand : nat -> Q) (fl : Q -> Q) name k :
  snd (emulated_value rand fl name k) = S k.
Proof.
  unfold emulated_value, uniform.
  repeat match goal with |- context [if ?c then _ else _] => destruct c end; reflexivity.
Qed.

(** The value of a branch of [start_emulation] lies in the bounds of its
    [uniform] call. *)
Ltac emulated_branch_bounds Hfl Hr :=
  match goal with |- context [uniform ?rand ?fl ?a ?b ?k] =>
    let u := fresh "u" in let k' := fresh "k'" in let E := fresh "E" in
    let U1 := fresh "U" in let U2 := fresh "U" in
    destruct (uniform rand fl a b k) as [u k'] eqn:E;
    destruct (uniform_bounds fl Hfl rand (Qnum a) (Qnum b) k u k' Hr
                ltac:(cbn; lia) ltac:(cbn; lia) ltac:(cbn; lia) ltac:(cbn; lia) E) as [[U1 U2] _];
    cbn [fst]; cbn [Qnum] in U1, U2
  end.

Lemma emulated_value_bounds (rand : nat -> Q) (fl : Q -> Q) name k :
  float_rounding fl -> (0 <= rand k <= 1)%Q ->
  (0 <= fst (emulated_value rand fl name k) <= 1020 # 1)%Q.
Proof.
  intros Hfl Hr. unfold emulated_value.
  repeat match goal with |- context [if ?c then _ else _] => destruct c end;
    emulated_branch_bounds Hfl Hr;
    change 0%Q with (inject_Z 0); change (1020 # 1) with (inject_Z 1020);
    (apply (fl_round2_bounds fl Hfl); [lia | lia |]);
    (split; [eapply Qle_trans; [|eassumption] | eapply Qle_trans; [eassumption|]]);
    rewrite <- Zle_Qle; lia.
Qed.

(** [X15] [start_emulation] picks each value from the lowercased sensor
    name with one random draw: a name containing "temp" or
    "температура" gets a value in [18, 26] whatever else it contains, a
    name containing none of the keywords a value in [0, 100], and every
    value lies in [0, 1020]. *)
Theorem emulated_value_ranges (rand : nat -> Q) (fl : Q -> Q) (name : string) (k : nat) :
  float_rounding fl -> (0 <= rand k <= 1)%Q ->
  snd (emulated_value rand fl name k) = S k /\
  (0 <= fst (emulated_value rand fl name k) <= 1020 # 1)%Q /\
  (contains "temp" name || contains "температура" name = true ->
   (18 # 1 <= fst (emulated_value rand fl name k) <= 26 # 1)%Q) /\
  (contains "temp" name || contains "температура" name || contains "humid" name ||
   contains "влажность" name || contains "co2" name || contains "press" name ||
   contains "давление" name = false ->
   (0 <= fst (emulated_value rand fl name k) <= 100 # 1)%Q).
Proof.
  intros Hfl Hr. split; [apply emulated_value_counter|].
  split; [apply emulated_value_bounds; assumption|].
  split.
  - intros Ht. unfold emulated_value. rewrite Ht.
    emulated_branch_bounds Hfl Hr.
    change (18 # 1) with (inject_Z 18). change (26 # 1) with (inject_Z 26).
    apply (fl_round2_bounds fl Hfl); [lia | lia | split; assumption].
  - intros Hn. unfold emulated_value.
    repeat rewrite Bool.orb_false_iff in Hn.
    destruct Hn as [[[[[[H1 H2] H3] H4] H5] H6] H7].
    rewrite H1, H2, H3, H4, H5, H6, H7. cbn [orb].
    emulated_branch_bounds Hfl Hr.
    change 0%Q with (inject_Z 0). change (100 # 1) with (inject_Z 100).
    apply (fl_round2_bounds fl Hfl); [lia | lia | split; assumption].
Qed.

Lemma emulated_value_ranges_witness :
  (0 <= mid_draws 0 <= 1)%Q /\
  (18 # 1 <= fst (emulated_value mid_draws id "temp co2 zone 1" 0) <= 26 # 1)%Q.
Proof.
  assert (Hr : (0 <= mid_draws 0 <= 1)%Q) by (unfold mid_draws; split; lra).
  split; [exact Hr|].
  destruct (emulated_value_ranges mid_draws id "temp co2 zone 1" 0 float_rounding_id Hr)
    as (_ & _ & Ht & _).
  apply Ht. reflexivity.
Defined.

(** [X16] When every mapped sensor's INSERT runs (the cursor's
    [execute] does not raise), one pass of [start_emulation] over the
    mapping's keys completes, keeps the mappings, appends exactly one row
    per key, in key order, stamped with the clock of its write and with a
    value in [0, 1020], and consumes exactly one random draw per key. *)
Theorem emulation_round_writes (rand : nat -> Q) (fl : Q -> Q) (lower : string -> string) (clock : nat -> Z)
    (outs : nat -> Writer.db_outcome) (w : Writer.writer) (keys : list Z) (i k : nat) :
  float_rounding fl -> (forall j, 0 <= rand j <= 1)%Q ->
  (forall j, outs j <> Writer.ExecuteError) ->
  Forall (fun id => is_Some (Writer.sensor_mappings w !! id)) keys ->
  exists w' new,
    emulation_round rand fl lower clock outs w keys i k = (true, w', (k + length keys)%nat) /\
    Writer.sensor_mappings w' = Writer.sensor_mappings w /\
    Writer.data_data w' = Writer.data_data w ++ new /\
    map (fun '(_, _, id) => id) new = keys /\
    map (fun '(_, ts, _) => ts) new = map clock (seq i (length keys)) /\
    Forall (fun '(v, _, _) => 0 <= v <= 1020 # 1)%Q new.
Proof.
  intros Hfl Hr Hout Hkeys. revert w i k Hkeys.
  induction keys as [|id rest IH]; intros w i k Hkeys.
  - exists w, []. rewrite app_nil_r, Nat.add_0_r. repeat split; constructor.
  - apply Forall_cons in Hkeys as [[[name sys] Hid] Hrest]. cbn [emulation_round].
    rewrite Hid.
    pose proof (emulated_value_counter rand fl (lower name) k) as Hk.
    pose proof (emulated_value_bounds rand fl (lower name) k Hfl (Hr k)) as Hv.
    destruct (emulated_value rand fl (lower name) k) as [v k1]. cbn [fst snd] in Hk, Hv. subst k1.
    set (w1 := Writer.mk_writer (Writer.sensor_mappings w)
                 (Writer.data_data w ++ [(v, clock i, id)])).
    assert (Hw1 : snd (Writer.write_sensor_data w id v None (clock i) (outs i)) = w1).
    { unfold Writer.write_sensor_data. rewrite Hid.
      specialize (Hout i). destruct (outs i); [reflexivity|congruence|reflexivity]. }
    rewrite Hw1.
    destruct (IH w1 (S i) (S k) Hrest) as (w' & new & Hrun & Hmap & Hdata & Hids & Hts & Hvals).
    exists w', ((v, clock i, id) :: new). rewrite Hrun.
    split; [replace (k + length (id :: rest))%nat with (S k + length rest)%nat by (cbn [length]; lia); reflexivity|].
    split; [exact Hmap|].
    split; [rewrite Hdata; cbn [w1 Writer.data_data]; rewrite <- app_assoc; reflexivity|].
    split; [cbn [map]; rewrite Hids; reflexivity|].
    split; [cbn [map length seq]; rewrite Hts; reflexivity|].
    constructor; [exact Hv | exact Hvals].
Qed.

Definition emulation_writer : Writer.writer :=
  Writer.mk_writer {[ 7 := ("Temp zone 1"%string, 1); 9 := ("CO2 hall"%string, 1) ]} [].

Lemma emulation_round_writes_witness :
  exists w' new,
    emulation_round mid_draws id (fun s => s) (fun _ => 100) (fun _ => Writer.Inserted 1)
      emulation_writer [7; 9] 0 0 = (true, w', 2%nat) /\
    Writer.data_data w' = new /\ map (fun '(_, _, id) => id) new = [7; 9].
Proof.
  destruct (emulation_round_writes mid_draws id (fun s => s) (fun _ => 100)
              (fun _ => Writer.Inserted 1) emulation_writer [7; 9] 0 0)
    as (w' & new & Hrun & _ & Hdata & Hids & _).
  - apply float_rounding_id.
  - intros j. unfold mid_draws. split; lra.
  - intros j. discriminate.
  - repeat constructor; vm_compute; eauto.
  - exists w', new. split; [exact Hrun|]. split; [exact Hdata|exact Hids].
Defined.

(** ** The generator loops (run_generator, continuous_data_generation) *)

(** The calls one loop iteration makes. [insert_readings] and
    [cleanup_old_data] catch their own errors; an exception of
    [generate_all_sensors] (an intensity that is not a number, a
    [failed_sensors] that is not a list of ints, ...) goes to the
    [except] clause and skips the rest of the iteration. *)
Inductive gen_call := Generate | Insert | Cleanup.

#[global] Instance gen_call_eq_dec : EqDecision gen_call.
Proof. solve_decision. Defined.

(** The body of the [while True] loop once [iteration] has been
    incremented to [n]; [raised] says whether [generate_all_sensors()]
    raised. *)
Definition generator_iteration (n : Z) (raised : bool) : list gen_call :=
  if raised then [Generate]
  else [Generate; Insert] ++ (if Z.eqb (n mod 10) 0 then [Cleanup] else []).

(** The calls of the first [m] iterations after [iteration];
    [raises n] says whether [generate_all_sensors()] raised in the
    iteration numbered [n]. *)
Fixpoint generator_calls (raises : Z -> bool) (m : nat) (iteration : Z) : list gen_call :=
  match m with
  | O => []
  | S m' => generator_iteration (iteration + 1) (raises (iteration + 1))
              ++ generator_calls raises m' (iteration + 1)
  end.

(** [run_generator()]: [iteration = 0], then the loop. *)
Definition run_generator (raises : Z -> bool) (m : nat) : list gen_call :=
  generator_calls raises m 0.

(** [continuous_data_generation()]: returns at once when the generator
    module could not be imported. *)
Definition continuous_data_generation (available : bool) (raises : Z -> bool) (m : nat)
    : list gen_call :=
  if available then generator_calls raises m 0 else [].

Lemma count_generator_iteration (n : Z) (raised : bool) :
  count_occ gen_call_eq_dec (generator_iteration n raised) Cleanup
    = (if negb raised && Z.eqb (n mod 10) 0 then 1 else 0)%nat /\
  count_occ gen_call_eq_dec (generator_iteration n raised) Insert
    = (if negb raised then 1 else 0)%nat /\
  count_occ gen_call_eq_dec (generator_iteration n raised) Generate = 1%nat.
Proof.
  unfold generator_iteration. destruct raised; [repeat split|].
  destruct (Z.eqb (n mod 10) 0); repeat split.
Qed.

Lemma count_generator_calls (raises : Z -> bool) (m : nat) (i : Z) :
  count_occ gen_call_eq_dec (generator_calls raises m i) Cleanup
    = length (List.filter (fun n => negb (raises n) && Z.eqb (n mod 10) 0)
                (map (fun j => i + 1 + Z.of_nat j) (seq 0 m))) /\
  count_occ gen_call_eq_dec (generator_calls raises m i) Insert
    = length (List.filter (fun n => negb (raises n)) (map (fun j => i + 1 + Z.of_nat j) (seq 0 m))) /\
  count_occ gen_call_eq_dec (generator_calls raises m i) Generate = m.
Proof.
  revert i. induction m as [|m IH]; intros i; [repeat split|].
  cbn [generator_calls]. rewrite !count_occ_app.
  destruct (IH (i + 1)) as (H1 & H2 & H3).
  destruct (count_generator_iteration (i + 1) (raises (i + 1))) as (C1 & C2 & C3).
  rewrite C1, C2, C3, H1, H2, H3.
  assert (Hs : map (fun j => i + 1 + 1 + Z.of_nat j) (seq 0 m)
               = map (fun j => i + 1 + Z.of_nat j) (seq 1 m)).
  { rewrite <- seq_shift, map_map. apply map_ext. intros j. lia. }
  rewrite Hs. cbn [seq map List.filter]. rewrite Z.add_0_r.
  split; [|split; [|reflexivity]];
    [destruct (negb (raises (i + 1)) && Z.eqb ((i + 1) mod 10) 0)
    | destruct (negb (raises (i + 1)))]; cbn [length]; reflexivity.
Qed.

Lemma count_generator_calls_no_raise (m : nat) (i : Z) :
  0 <= i ->
  Z.of_nat (count_occ gen_call_eq_dec (generator_calls (fun _ => false) m i) Cleanup)
    = (i + Z.of_nat m) / 10 - i / 10 /\
  count_occ gen_call_eq_dec (generator_calls (fun _ => false) m i) Insert = m.
Proof.
  revert i. induction m as [|m IH]; intros i Hi.
  - simpl. rewrite Z.add_0_r, Z.sub_diag. split; reflexivity.
  - cbn [generator_calls]. rewrite !count_occ_app.
    destruct (IH (i + 1) ltac:(lia)) as (H1 & H2).
    destruct (count_generator_iteration (i + 1) false) as (C1 & C2 & _).
    rewrite C1, C2, H2. split; [|reflexivity].
    rewrite Nat2Z.inj_add, H1. cbn [negb andb].
    destruct (Z.eqb_spec ((i + 1) mod 10) 0); cbn [Z.of_nat Pos.of_succ_nat];
      Z.to_euclidean_division_equations; lia.
Qed.

(** [X17] In its first [m] iterations, [run_generator] (and
    [continuous_data_generation] when the generator module is available)
    calls [generate_all_sensors] [m] times; it inserts readings in each
    iteration where that call did not raise, and calls
    [cleanup_old_data] in each such iteration whose number is a multiple
    of 10 (an iteration that raises skips both). When no call raises,
    that is [m] inserts and [m / 10] cleanups, on iterations 10, 20, ...;
    without the module, [continuous_data_generation] makes no call. *)
Theorem generator_cleanup_cadence (raises : Z -> bool) (m : nat) :
  count_occ gen_call_eq_dec (run_generator raises m) Generate = m /\
  count_occ gen_call_eq_dec (run_generator raises m) Insert
    = length (List.filter (fun n => negb (raises n)) (py_range 1 (Z.of_nat m + 1))) /\
  count_occ gen_call_eq_dec (run_generator raises m) Cleanup
    = length (List.filter (fun n => negb (raises n) && Z.eqb (n mod 10) 0)
                (py_range 1 (Z.of_nat m + 1))) /\
  count_occ gen_call_eq_dec (run_generator (fun _ => false) m) Insert = m /\
  count_occ gen_call_eq_dec (run_generator (fun _ => false) m) Cleanup = (m / 10)%nat /\
  continuous_data_generation true raises m = run_generator raises m /\
  continuous_data_generation false raises m = [].
Proof.
  assert (Hr : py_range 1 (Z.of_nat m + 1) = map (fun j => 0 + 1 + Z.of_nat j) (seq 0 m)).
  { unfold py_range. replace (Z.to_nat (Z.of_nat m + 1 - 1)) with m by lia. reflexivity. }
  destruct (count_generator_calls raises m 0) as (H1 & H2 & H3).
  destruct (count_generator_calls_no_raise m 0 ltac:(lia)) as (N1 & N2).
  unfold run_generator. rewrite Hr.
  split; [exact H3|]. split; [exact H2|]. split; [exact H1|]. split; [exact N2|].
  split; [|split; reflexivity].
  apply Nat2Z.inj. rewrite N1, Nat2Z.inj_div, Z.add_0_l, Z.div_0_l, Z.sub_0_r by lia.
  reflexivity.
Qed.

(** ** Triggers for a building the generator does not know *)

(** Two scenario entries act alike on building [b]. *)
Definition agree_at (e1 e2 : entry) (b : Z) : Prop :=
  applies e1 b = applies e2 b /\ (applies e1 b = true -> intensity e1 = intensity e2).

Lemma apply_scenarios_agree (rand : nat -> Q) (fl : Q -> Q) st1 st2 b vals :
  (forall name, agree_at (get_entry st1 name) (get_entry st2 name) b) ->
  apply_scenarios rand fl st1 b vals = apply_scenarios rand fl st2 b vals.
Proof.
  intros Hag. destruct vals as [[[[t h] c] p] k]. unfold apply_scenarios.
  destruct (Hag "temperature_spike"%string) as [A1 I1].
  destruct (Hag "humidity_drop"%string) as [A2 I2].
  destruct (Hag "co2_alarm"%string) as [A3 I3].
  destruct (Hag "equipment_failure"%string) as [A4 _].
  rewrite <- A1, <- A2, <- A3, <- A4.
  destruct (applies (get_entry st1 "temperature_spike") b) eqn:E1;
    try rewrite (I1 eq_refl);
  destruct (applies (get_entry st1 "humidity_drop") b) eqn:E2;
    try rewrite (I2 eq_refl);
  destruct (applies (get_entry st1 "co2_alarm") b) eqn:E3;
    try rewrite (I3 eq_refl); reflexivity.
Qed.

(** [X18] [trigger_scenario] accepts any building id, but a trigger for a
    building id equal to none of 1..5 (the generator's buildings) changes
    no reading of [generate_all_sensors()], provided the scenario it
    replaces was not active for one of the buildings 1..5: the request
    succeeds and has no visible effect. *)
Theorem trigger_unknown_building_no_effect (rand : nat -> Q) (fl : Q -> Q) (st : gmap string entry)
    (rq : request) (ty : string) (bj : json) (e0 : entry) (aff : list Z)
    (db : json -> option (list Z)) (now now' : Z) (k : nat) :
  req_type rq = Some ty -> req_building_id rq = Some bj ->
  (forall b, 1 <= b <= 5 -> json_int_value bj <> Some b) ->
  st !! ty = Some e0 -> db bj = Some aff ->
  (forall b', 1 <= b' <= 5 -> applies e0 b' = false) ->
  fst (Scenarios.trigger_scenario st (Some rq) db now) = true /\
  generate_all_sensors rand fl (snd (Scenarios.trigger_scenario st (Some rq) db now)) now' k
  = generate_all_sensors rand fl st now' k.
Proof.
  intros Hty Hb Hout He0 Hdb Hold.
  assert (Hbo : Scenarios.building_of rq = bj)
    by (unfold Scenarios.building_of; rewrite Hb; reflexivity).
  assert (Hdb' : db (Scenarios.building_of rq) = Some aff) by (rewrite Hbo; exact Hdb).
  rewrite (trigger_success st rq ty e0 db now aff Hty He0 Hdb'), Hbo. cbn [fst snd].
  split; [reflexivity|].
  unfold generate_all_sensors. apply generate_loop_ext. intros s b' c k0.
  destruct (base_temps b') as [bt|] eqn:Hbt;
    [|unfold generate_sensor_reading; rewrite Hbt; reflexivity].
  destruct (base_humidity b') as [bh|] eqn:Hbh;
    [|unfold generate_sensor_reading; rewrite Hbt, Hbh; reflexivity].
  assert (Hb' : 1 <= b' <= 5) by (apply base_temps_Some; eauto).
  rewrite !(generate_sensor_reading_eq rand _ _ now' s b' c k0 bt bh Hbt Hbh).
  f_equal. apply apply_scenarios_agree. intros name.
  rewrite get_entry_insert. case_decide as Hn; [|split; reflexivity].
  subst name. unfold get_entry. rewrite He0. cbn [default id].
  pose proof (Hold b' Hb') as Ho.
  unfold agree_at, applies. cbn [active building_id andb].
  rewrite bool_decide_eq_false_2 by (apply Hout; exact Hb').
  unfold applies in Ho. rewrite Ho. split; [reflexivity | intros H; discriminate H].
Qed.

Lemma trigger_unknown_building_no_effect_witness :
  fst (Scenarios.trigger_scenario SCENARIO_STATE
         (Some (mk_request (Some "temperature_spike"%string) (Some (JInt 9)) None None))
         (fun _ => Some []) 0) = true /\
  generate_all_sensors mid_draws id
    (snd (Scenarios.trigger_scenario SCENARIO_STATE
            (Some (mk_request (Some "temperature_spike"%string) (Some (JInt 9)) None None))
            (fun _ => Some []) 0)) 0 0
  = generate_all_sensors mid_draws id SCENARIO_STATE 0 0.
Proof.
  apply (trigger_unknown_building_no_effect mid_draws id SCENARIO_STATE
           (mk_request (Some "temperature_spike"%string) (Some (JInt 9)) None None)
           "temperature_spike" (JInt 9) (initial_entry 10) [] (fun _ => Some []) 0 0 0).
  - reflexivity.
  - reflexivity.
  - intros b Hb H. cbn in H. injection H as <-. lia.
  - reflexivity.
  - reflexivity.
  - intros b' _. reflexivity.
Defined.
